(** * rtop (Qt5 front end): the refresh cycle of [Dialog::updateDataFromRust]

    A shallow embedding of [src/Qt5/dialog.cpp].  Once per timer tick the
    dialog asks the metrics provider for a JSON payload, releases the
    provider's buffer, decodes the payload with [QJsonDocument::fromJson]
    and writes thirteen widgets.

    Layout of the development:
    - [Dbl], [QString] : the [double] and text operations the cycle uses;
    - [QJsonValue], [QJsonObject], [QJsonDocument] : Qt's JSON classes as
      far as the cycle calls them, with a decoder for RFC 8259 text
      ([JsonText]);
    - [Provider]       : the C interface of the metrics provider and the
      heap its payload buffers live on;
    - [Ui]             : the widgets of the dialog and the calls on them;
    - [Dialog]         : [updateDataFromRust], as a command on the state of
      the dialog, and the timer that drives it;
    - the vocabulary of the properties, the lemmas on the decoder, on
      [QString::number] and on a cycle, and the claims C1 to C10.

    Numbers are IEEE 754 binary64 values (Rocq's primitive [float]), as the
    C++ [double] is; byte strings and texts are [string]s holding UTF-8.
    Qt itself is not part of the repository: its classes are modelled
    after their documentation, and the remarks on each definition say
    which documented behaviour it follows. *)

From Stdlib Require Import ZArith Lia Ascii String.
From Stdlib Require Import Floats.PrimFloat Floats.FloatOps Floats.SpecFloat.
From stdpp Require Import base option list strings gmap.

Set Warnings "-inexact-float,-register-all".

Local Open Scope string_scope.
Local Open Scope Z_scope.

(** ** [double] *)

Module Dbl.

(** The magnitude of a finite [double] is [m * 2^e] for the mantissa and
    exponent that [Prim2SF] returns. *)
Definition is_finite (d : float) : bool :=
  match Prim2SF d with
  | S754_zero _ | S754_finite _ _ _ => true
  | S754_infinity _ | S754_nan => false
  end.

(** [round_half_up num den] is the integer nearest to [num / den]
    ([0 <= num], [0 < den]), a tie going up. *)
Definition round_half_up (num den : Z) : Z :=
  let q := num / den in
  let r := num mod den in
  if den <=? 2 * r then q + 1 else q.

(** [scaled prec m e]: the magnitude [m * 2^e] times [10^prec], rounded
    to an integer. *)
Definition scaled (prec : nat) (m : positive) (e : Z) : Z :=
  let p10 := 10 ^ Z.of_nat prec in
  if 0 <=? e then Z.pos m * 2 ^ e * p10
  else round_half_up (Z.pos m * p10) (2 ^ (- e)).

(** The value of a [double] as an [int], when it is a whole number in the
    range of a 32-bit [int]; this is the test [int(dbl) == dbl]. *)
Definition to_int (d : float) : option Z :=
  match Prim2SF d with
  | S754_zero _ => Some 0
  | S754_finite s m e =>
      let mag :=
        if 0 <=? e then Some (Z.pos m * 2 ^ e)
        else if Z.pos m mod 2 ^ (- e) =? 0 then Some (Z.pos m / 2 ^ (- e))
        else None in
      match mag with
      | Some n =>
          let v := if s then - n else n in
          if (- 2147483648 <=? v) && (v <=? 2147483647) then Some v else None
      | None => None
      end
  | S754_infinity _ | S754_nan => None
  end.

(** Decimal text to [double]: the binary64 value nearest to
    [digits * 10^exp10] (ties to even), as [strtod] computes it.  The
    quotient by a power of ten is rounded once, from the exact
    remainder. *)
Definition of_decimal (neg : bool) (digits : Z) (exp10 : Z) : spec_float :=
  match digits with
  | Z.pos n =>
      if 0 <=? exp10
      then binary_normalize prec emax
             (if neg then - (Z.pos n * 10 ^ exp10) else Z.pos n * 10 ^ exp10) 0 neg
      else
        match 10 ^ (- exp10) with
        | Z.pos p =>
            SFdiv prec emax (S754_finite neg n 0) (S754_finite false p 0)
        | _ => S754_nan
        end
  | _ => S754_zero neg
  end.

End Dbl.

(** ** [QString]

    A [QString] is represented by the UTF-8 encoding of its text, so
    [QString::fromUtf8] of well-formed UTF-8 and [toUtf8] are the
    identity on the representation. *)

Module QString.

Definition t := string.

Definition fromUtf8 (bytes : string) : t := bytes.
Definition toUtf8 (s : t) : string := s.

Definition digit (n : Z) : ascii := ascii_of_nat (48 + Z.to_nat (n mod 10)).

(** The last [width] decimal digits of [n], most significant first. *)
Fixpoint fixed_digits (width : nat) (n : Z) : string :=
  match width with
  | O => ""
  | S w => fixed_digits w (n / 10) +:+ String (digit n) ""
  end.

(** The decimal digits of [0 <= n] without leading zeros ("0" for 0);
    [fuel] bounds the number of digits. *)
Fixpoint digits_go (fuel : nat) (n : Z) (acc : string) : string :=
  match fuel with
  | O => acc
  | S f =>
      let acc' := String (digit n) acc in
      if n / 10 =? 0 then acc' else digits_go f (n / 10) acc'
  end.

Definition digits (n : Z) : string :=
  digits_go (S (Z.to_nat (Z.log2 n))) n "".

(** The fixed notation of the scaled integer [n = round (x * 10^prec)]:
    integer part, and a point followed by [prec] digits when [prec > 0]. *)
Definition decimalForm (prec : nat) (n : Z) : string :=
  let p10 := 10 ^ Z.of_nat prec in
  digits (n / p10) +:+
  match prec with
  | O => ""
  | S _ => "." +:+ fixed_digits prec (n mod p10)
  end.

(** [QString::number(d, 'f', prec)] in the C locale: fixed notation with
    [prec] digits after the point, the exact binary value rounded to the
    nearest such decimal (a tie away from zero); a minus sign for a
    negative value other than zero; "inf", "-inf" and "nan" otherwise. *)
Definition number (d : float) (prec : nat) : t :=
  match Prim2SF d with
  | S754_zero _ => decimalForm prec 0
  | S754_finite s m e =>
      (if s then "-" else "") +:+ decimalForm prec (Dbl.scaled prec m e)
  | S754_infinity s => if s then "-inf" else "inf"
  | S754_nan => "nan"
  end.

End QString.

(** ** Qt's JSON classes

    What the cycle uses of [QJsonValue], [QJsonObject] and [QJsonDocument],
    after Qt 5's documentation of these classes. *)

Module QJsonValue.

Inductive t :=
| Null
| Bool (b : bool)
| Double (d : float)
| String (s : QString.t)
| Array (a : list t)
| Object (o : gmap string t)
| Undefined.

(** [toDouble(defaultValue = 0)]: the number when the value is one, the
    default otherwise. *)
Definition toDouble (v : t) : float :=
  match v with
  | Double d => d
  | _ => 0%float
  end.

(** [toInt(defaultValue = 0)]: "If type() is not Double or the value is
    not a whole number, the defaultValue will be returned." *)
Definition toInt (v : t) : Z :=
  match v with
  | Double d =>
      match Dbl.to_int d with
      | Some n => n
      | None => 0
      end
  | _ => 0
  end.

End QJsonValue.

Module QJsonObject.

Abbreviation t := (gmap string QJsonValue.t).

(** [operator[](const QString &key)] on an object that is not [const]:
    "Returns a reference to the value for key.  If there is no value with
    key [key] in the object, one is created with a QJsonValue::Null value
    and then returned."  The value read is returned with the object as
    the call leaves it. *)
Definition index (key : string) (o : t) : QJsonValue.t * t :=
  match o !! key with
  | Some v => (v, o)
  | None => (QJsonValue.Null, <[key := QJsonValue.Null]> o)
  end.

End QJsonObject.

(** The JSON text format (RFC 8259), which [QJsonDocument::fromJson]
    decodes.  The decoder is a recursive descent over the bytes, the way
    Qt's own is written; [fuel] bounds the depth of the recursion, and
    [JsonTextFacts.parse_not_OutOfFuel] shows that [parse] never runs out
    of it.  The grammar is the one of the RFC, read strictly. *)

Module JsonText.

Inductive res (A : Type) :=
| Ok (a : A) (rest : string)
| Err
| OutOfFuel.
Arguments Ok {A} a rest.
Arguments Err {A}.
Arguments OutOfFuel {A}.

Definition code (c : ascii) : Z := Z.of_nat (nat_of_ascii c).
Definition byte (n : Z) : ascii := ascii_of_nat (Z.to_nat n).

Definition is_space (c : ascii) : bool :=
  let n := code c in (n =? 32) || (n =? 9) || (n =? 10) || (n =? 13).

Definition is_digit (c : ascii) : bool :=
  let n := code c in (48 <=? n) && (n <=? 57).

Fixpoint eatSpace (s : string) : string :=
  match s with
  | String c r => if is_space c then eatSpace r else s
  | EmptyString => s
  end.

(** [strip p s]: [s] without its prefix [p]. *)
Fixpoint strip (p s : string) : option string :=
  match p, s with
  | EmptyString, _ => Some s
  | String a p', String b s' => if Ascii.eqb a b then strip p' s' else None
  | String _ _, EmptyString => None
  end.

(** *** Numbers *)

(** The run of digits at the head of [s], accumulated onto [acc]; the
    number of digits read; the rest. *)
Fixpoint digits_of (s : string) (acc : Z) (n : Z) : Z * Z * string :=
  match s with
  | String c r =>
      if is_digit c then digits_of r (10 * acc + (code c - 48)) (n + 1)
      else (acc, n, s)
  | EmptyString => (acc, n, s)
  end.

(** [int = zero / ( digit1-9 *DIGIT )] *)
Definition parseInt (s : string) : option (Z * string) :=
  match s with
  | String c r =>
      if code c =? 48 then Some (0, r)
      else
        let '(v, n, r') := digits_of s 0 0 in
        if 0 <? n then Some (v, r') else None
  | EmptyString => None
  end.

(** [frac = decimal-point 1*DIGIT]: the digits extend the mantissa. *)
Definition parseFrac (mant : Z) (s : string) : option (Z * Z * string) :=
  match s with
  | String c r =>
      if code c =? 46 then
        let '(v, n, r') := digits_of r mant 0 in
        if 0 <? n then Some (v, n, r') else None
      else Some (mant, 0, s)
  | EmptyString => Some (mant, 0, s)
  end.

(** [exp = e [ minus / plus ] 1*DIGIT] *)
Definition parseExp (s : string) : option (Z * string) :=
  match s with
  | String c r =>
      if (code c =? 101) || (code c =? 69) then
        let '(neg, r1) :=
          match r with
          | String d r' =>
              if code d =? 45 then (true, r')
              else if code d =? 43 then (false, r')
              else (false, r)
          | EmptyString => (false, r)
          end in
        let '(v, n, r2) := digits_of r1 0 0 in
        if 0 <? n then Some (if neg then - v else v, r2) else None
      else Some (0, s)
  | EmptyString => Some (0, s)
  end.

(** [number = [ minus ] int [ frac ] [ exp ]], converted to the nearest
    [double]; a number beyond the range of [double] (one that would
    become infinite, or zero without being zero) is refused. *)
Definition parseNumber (s : string) : res float :=
  let '(neg, s0) :=
    match s with
    | String c r => if code c =? 45 then (true, r) else (false, s)
    | EmptyString => (false, s)
    end in
  match parseInt s0 with
  | Some (i, s1) =>
      match parseFrac i s1 with
      | Some (mant, nfrac, s2) =>
          match parseExp s2 with
          | Some (e, s3) =>
              match Dbl.of_decimal neg mant (e - nfrac) with
              | S754_finite sg m ex => Ok (SF2Prim (S754_finite sg m ex)) s3
              | S754_zero sg =>
                  if mant =? 0 then Ok (SF2Prim (S754_zero sg)) s3 else Err
              | _ => Err
              end
          | None => Err
          end
      | None => Err
      end
  | None => Err
  end.

(** *** Strings *)

Definition hex (c : ascii) : option Z :=
  let n := code c in
  if (48 <=? n) && (n <=? 57) then Some (n - 48)
  else if (65 <=? n) && (n <=? 70) then Some (n - 55)
  else if (97 <=? n) && (n <=? 102) then Some (n - 87)
  else None.

Definition hex4 (a b c d : ascii) : option Z :=
  match hex a, hex b, hex c, hex d with
  | Some x, Some y, Some z, Some w => Some (((x * 16 + y) * 16 + z) * 16 + w)
  | _, _, _, _ => None
  end.

(** The UTF-8 encoding of a code point. *)
Definition utf8 (cp : Z) : string :=
  if cp <? 128 then String (byte cp) ""
  else if cp <? 2048 then
    String (byte (192 + cp / 64)) (String (byte (128 + cp mod 64)) "")
  else if cp <? 65536 then
    String (byte (224 + cp / 4096))
      (String (byte (128 + cp / 64 mod 64)) (String (byte (128 + cp mod 64)) ""))
  else
    String (byte (240 + cp / 262144))
      (String (byte (128 + cp / 4096 mod 64))
         (String (byte (128 + cp / 64 mod 64)) (String (byte (128 + cp mod 64)) ""))).

Definition is_high_surrogate (u : Z) : bool := (55296 <=? u) && (u <=? 56319).
Definition is_low_surrogate (u : Z) : bool := (56320 <=? u) && (u <=? 57343).

(** The text of a string, from after its opening quote up to the closing
    one.  A [\u] escape names a UTF-16 code unit; a high surrogate
    followed by an escaped low one is one code point, a surrogate on its
    own becomes U+FFFD. *)
Fixpoint parseString (s : string) (acc : string) : res string :=
  match s with
  | EmptyString => Err
  | String c r =>
      if code c =? 34 then Ok acc r
      else if code c =? 92 then
        match r with
        | String e r1 =>
            let simple (b : Z) := parseString r1 (acc +:+ String (byte b) "") in
            if code e =? 34 then simple 34
            else if code e =? 92 then simple 92
            else if code e =? 47 then simple 47
            else if code e =? 98 then simple 8
            else if code e =? 102 then simple 12
            else if code e =? 110 then simple 10
            else if code e =? 114 then simple 13
            else if code e =? 116 then simple 9
            else if code e =? 117 then
              match r1 with
              | String h1 (String h2 (String h3 (String h4 r2))) =>
                  match hex4 h1 h2 h3 h4 with
                  | Some u =>
                      if is_high_surrogate u then
                        match r2 with
                        | String b1 (String b2 (String l1 (String l2 (String l3 (String l4 r3))))) =>
                            match (if (code b1 =? 92) && (code b2 =? 117)
                                   then hex4 l1 l2 l3 l4 else None) with
                            | Some lo =>
                                if is_low_surrogate lo
                                then parseString r3
                                       (acc +:+ utf8 (65536 + (u - 55296) * 1024 + (lo - 56320)))
                                else parseString r2 (acc +:+ utf8 65533)
                            | None => parseString r2 (acc +:+ utf8 65533)
                            end
                        | _ => parseString r2 (acc +:+ utf8 65533)
                        end
                      else if is_low_surrogate u then parseString r2 (acc +:+ utf8 65533)
                      else parseString r2 (acc +:+ utf8 u)
                  | None => Err
                  end
              | _ => Err
              end
            else Err
        | EmptyString => Err
        end
      else if code c <? 32 then Err
      else parseString r (acc +:+ String c "")
  end.

(** *** Values *)

(** [parseValue] reads the value at the head of [s]; [parseElements]
    reads the elements of an array from its first value to the closing
    bracket, [parseMembers] the members of an object from its first key
    to the closing brace.  A key given twice keeps its last value. *)
Fixpoint parseValue (fuel : nat) (s : string) : res QJsonValue.t :=
  match fuel with
  | O => OutOfFuel
  | S f =>
      match s with
      | EmptyString => Err
      | String c r =>
          if code c =? 123 then
            match eatSpace r with
            | String d r' =>
                if code d =? 125 then Ok (QJsonValue.Object ∅) r'
                else parseMembers f (eatSpace r) ∅
            | EmptyString => Err
            end
          else if code c =? 91 then
            match eatSpace r with
            | String d r' =>
                if code d =? 93 then Ok (QJsonValue.Array []) r'
                else parseElements f (eatSpace r) []
            | EmptyString => Err
            end
          else if code c =? 34 then
            match parseString r "" with
            | Ok str r' => Ok (QJsonValue.String str) r'
            | Err => Err
            | OutOfFuel => OutOfFuel
            end
          else if code c =? 116 then
            match strip "true" s with
            | Some r' => Ok (QJsonValue.Bool true) r'
            | None => Err
            end
          else if code c =? 102 then
            match strip "false" s with
            | Some r' => Ok (QJsonValue.Bool false) r'
            | None => Err
            end
          else if code c =? 110 then
            match strip "null" s with
            | Some r' => Ok QJsonValue.Null r'
            | None => Err
            end
          else
            match parseNumber s with
            | Ok d r' => Ok (QJsonValue.Double d) r'
            | Err => Err
            | OutOfFuel => OutOfFuel
            end
      end
  end
with parseElements (fuel : nat) (s : string) (acc : list QJsonValue.t)
  : res QJsonValue.t :=
  match fuel with
  | O => OutOfFuel
  | S f =>
      match parseValue f s with
      | Ok v r =>
          match eatSpace r with
          | String c r' =>
              if code c =? 44 then parseElements f (eatSpace r') (acc ++ [v])
              else if code c =? 93 then Ok (QJsonValue.Array (acc ++ [v])) r'
              else Err
          | EmptyString => Err
          end
      | Err => Err
      | OutOfFuel => OutOfFuel
      end
  end
with parseMembers (fuel : nat) (s : string) (acc : gmap string QJsonValue.t)
  : res QJsonValue.t :=
  match fuel with
  | O => OutOfFuel
  | S f =>
      match s with
      | String q r =>
          if code q =? 34 then
            match parseString r "" with
            | Ok key r1 =>
                match eatSpace r1 with
                | String c r2 =>
                    if code c =? 58 then
                      match parseValue f (eatSpace r2) with
                      | Ok v r3 =>
                          match eatSpace r3 with
                          | String d r4 =>
                              if code d =? 44
                              then parseMembers f (eatSpace r4) (<[key := v]> acc)
                              else if code d =? 125
                              then Ok (QJsonValue.Object (<[key := v]> acc)) r4
                              else Err
                          | EmptyString => Err
                          end
                      | Err => Err
                      | OutOfFuel => OutOfFuel
                      end
                    else Err
                | EmptyString => Err
                end
            | Err => Err
            | OutOfFuel => OutOfFuel
            end
          else Err
      | EmptyString => Err
      end
  end.

(** A JSON text as [fromJson] takes it: one array or object, white space
    around it and nothing after it. *)
Definition parse (s : string) : res QJsonValue.t :=
  let s0 := eatSpace s in
  match s0 with
  | String c _ =>
      if (code c =? 123) || (code c =? 91) then
        match parseValue (2 * String.length s0 + 2) s0 with
        | Ok v r =>
            match eatSpace r with
            | EmptyString => Ok v ""
            | String _ _ => Err
            end
        | Err => Err
        | OutOfFuel => OutOfFuel
        end
      else Err
  | EmptyString => Err
  end.

(** What the length lemmas say of one result: it is not [OutOfFuel], and
    an [Ok] leaves less than [n] bytes. *)
Definition consumes {A} (n : nat) (x : res A) : Prop :=
  x <> OutOfFuel
  /\ forall a r, x = Ok a r -> (String.length r < n)%nat.

End JsonText.

Module QJsonDocument.

(** A document is null, or holds an object or an array. *)
Inductive t :=
| NullDocument
| ObjectDocument (o : QJsonObject.t)
| ArrayDocument (a : list QJsonValue.t).

(** [fromJson(json)]: "Parses json as a UTF-8 encoded JSON document, and
    creates a QJsonDocument from it.  Returns a valid (non-null)
    QJsonDocument if the parsing succeeds.  If it fails, the returned
    document will be null". *)
Definition fromJson (json : string) : t :=
  match JsonText.parse json with
  | JsonText.Ok (QJsonValue.Object o) _ => ObjectDocument o
  | JsonText.Ok (QJsonValue.Array a) _ => ArrayDocument a
  | _ => NullDocument
  end.

Definition isNull (doc : t) : bool :=
  match doc with
  | NullDocument => true
  | _ => false
  end.

Definition isObject (doc : t) : bool :=
  match doc with
  | ObjectDocument _ => true
  | _ => false
  end.

(** [object()]: "Returns the QJsonObject contained in the document.
    Returns an empty object if the document contains an array." (and for a
    null document). *)
Definition object (doc : t) : QJsonObject.t :=
  match doc with
  | ObjectDocument o => o
  | _ => ∅
  end.

End QJsonDocument.

(** ** The metrics provider *)

Module Provider.

(** Modelled from the spec: [rtop_rust.h] and the provider behind it are
    not among the sources.  The provider is "a single no-argument request
    returning either a UTF-8 string payload or an empty/absent result",
    and "the caller is responsible for releasing any heap buffer the
    provider allocates for the payload, exactly once".

    A buffer is a block of the heap holding a C string.  What the
    provider answers at a call is an input of the model: [None] for the
    null pointer, [Some s] for a new buffer that holds [s]. *)

Definition ptr := positive.

(** The live buffers, each with its text. *)
Abbreviation heap := (gmap ptr string).

(** [const char *get_system_metrics_json()] *)
Definition get_system_metrics_json (answer : option string) (h : heap)
  : option ptr * heap :=
  match answer with
  | Some s => let p := fresh (dom h) in (Some p, <[p := s]> h)
  | None => (None, h)
  end.

(** Reading the C string at [p]; nothing to read when [p] is not live. *)
Definition read (p : ptr) (h : heap) : option string := h !! p.

(** [void free_string(char *s)]: releases the buffer at [p]; releasing what
    is not live (a second release, a pointer never handed out) is a
    fault, [None]. *)
Definition free_string (p : ptr) (h : heap) : option heap :=
  match h !! p with
  | Some _ => Some (delete p h)
  | None => None
  end.

End Provider.

(** ** The widgets *)

Module Ui.

(** Modelled from the spec: [ui_dialog.h], which declares the widgets, is
    not among the sources.  The display state is "the last successfully
    rendered value per metric", unset at start: per widget, what the last
    [setValue] or [setText] on it was given. *)

Inductive widget :=
| barCPU1 | freqCPU1
| barGPU | freqGPU
| barNPU1 | freqNPU1
| barRGA1 | freqRGA1
| barMem | barSwap
| barTemp | freqTemp
| barFan.

#[global] Instance widget_eq_dec : EqDecision widget.
Proof. solve_decision. Defined.

Definition widget_code (w : widget) : nat :=
  match w with
  | barCPU1 => 0 | freqCPU1 => 1 | barGPU => 2 | freqGPU => 3
  | barNPU1 => 4 | freqNPU1 => 5 | barRGA1 => 6 | freqRGA1 => 7
  | barMem => 8 | barSwap => 9 | barTemp => 10 | freqTemp => 11
  | barFan => 12
  end%nat.

Definition widget_of_code (n : nat) : widget :=
  match n with
  | 0 => barCPU1 | 1 => freqCPU1 | 2 => barGPU | 3 => freqGPU
  | 4 => barNPU1 | 5 => freqNPU1 | 6 => barRGA1 | 7 => freqRGA1
  | 8 => barMem | 9 => barSwap | 10 => barTemp | 11 => freqTemp
  | _ => barFan
  end%nat.

#[global] Instance widget_countable : Countable widget.
Proof.
  apply (inj_countable' widget_code widget_of_code).
  intros w. destruct w; reflexivity.
Defined.

Definition widgets : list widget :=
  [barCPU1; freqCPU1; barGPU; freqGPU; barNPU1; freqNPU1; barRGA1; freqRGA1;
   barMem; barSwap; barTemp; freqTemp; barFan].

(** What a widget was given: the [double] or the [int] of a [setValue],
    the text of a [setText]. *)
Inductive content :=
| Real (d : float)
| Int (n : Z)
| Text (s : QString.t).

Abbreviation DisplayState := (gmap widget content).

(** One call on a widget. *)
Record call := Call { target : widget; given : content }.

Definition setValue (w : widget) (d : float) : call := Call w (Real d).
Definition setValue_int (w : widget) (n : Z) : call := Call w (Int n).
Definition setText (w : widget) (s : QString.t) : call := Call w (Text s).

Definition exec (ds : DisplayState) (c : call) : DisplayState :=
  <[target c := given c]> ds.

Definition exec_all (cs : list call) (ds : DisplayState) : DisplayState :=
  foldl exec ds cs.

End Ui.

(** ** The dialog *)

Module Dialog.

(** What a cycle does to the outside, in order: the provider's answer to
    [get_system_metrics_json], a [free_string], a call on a widget. *)
Inductive event :=
| Get (json_str : option Provider.ptr)
| Free (p : Provider.ptr)
| Widget (c : Ui.call).

Record state := State { ui : Ui.DisplayState; heap : Provider.heap }.

(** A command runs from a state to its result, the events it caused and
    the state it leaves; [None] is a fault: it touched a buffer that is
    not live. *)
Definition cmd (A : Type) : Type := state -> option (A * list event * state).

#[global] Instance cmd_ret : MRet cmd := fun A a st => Some (a, [], st).

#[global] Instance cmd_bind : MBind cmd := fun A B k c st =>
  match c st with
  | Some (a, evs, st') =>
      match k a st' with
      | Some (b, evs', st'') => Some (b, (evs ++ evs')%list, st'')
      | None => None
      end
  | None => None
  end.

(** The calls of the cycle on the provider, on [QString] and on the
    widgets, as commands. *)
Definition get_system_metrics_json (answer : option string)
  : cmd (option Provider.ptr) := fun st =>
  let '(json_str, h) := Provider.get_system_metrics_json answer (heap st) in
  Some (json_str, [Get json_str], State (ui st) h).

Definition fromUtf8 (str : Provider.ptr) : cmd QString.t := fun st =>
  match Provider.read str (heap st) with
  | Some bytes => Some (QString.fromUtf8 bytes, [], st)
  | None => None
  end.

Definition free_string (s : Provider.ptr) : cmd unit := fun st =>
  match Provider.free_string s (heap st) with
  | Some h => Some (tt, [Free s], State (ui st) h)
  | None => None
  end.

Definition call (c : Ui.call) : cmd unit := fun st =>
  Some (tt, [Widget c], State (Ui.exec (ui st) c) (heap st)).

Definition setValue (w : Ui.widget) (d : float) : cmd unit := call (Ui.setValue w d).
Definition setValue_int (w : Ui.widget) (n : Z) : cmd unit := call (Ui.setValue_int w n).
Definition setText (w : Ui.widget) (s : QString.t) : cmd unit := call (Ui.setText w s).

(** Lines 33 to 51 of [dialog.cpp].  [obj] is a local object that is not
    [const], so each [obj[key]] goes through [QJsonObject.index]. *)
Definition show (obj : QJsonObject.t) : cmd unit :=
  let '(cpu_usage, obj) := QJsonObject.index "cpu_usage" obj in
  setValue Ui.barCPU1 (QJsonValue.toDouble cpu_usage);;
  let '(cpu_freq, obj) := QJsonObject.index "cpu_freq" obj in
  setText Ui.freqCPU1
    (QString.number (QJsonValue.toDouble cpu_freq / 1000000)%float 2 +:+ " GHz");;

  let '(gpu_usage, obj) := QJsonObject.index "gpu_usage" obj in
  setValue Ui.barGPU (QJsonValue.toDouble gpu_usage);;
  let '(gpu_freq, obj) := QJsonObject.index "gpu_freq" obj in
  setText Ui.freqGPU
    (QString.number (QJsonValue.toDouble gpu_freq / 1000000)%float 2 +:+ " GHz");;

  let '(npu_usage, obj) := QJsonObject.index "npu_usage" obj in
  setValue Ui.barNPU1 (QJsonValue.toDouble npu_usage);;
  let '(npu_freq, obj) := QJsonObject.index "npu_freq" obj in
  setText Ui.freqNPU1
    (QString.number (QJsonValue.toDouble npu_freq / 1000000)%float 2 +:+ " GHz");;

  let '(rga_usage, obj) := QJsonObject.index "rga_usage" obj in
  setValue Ui.barRGA1 (QJsonValue.toDouble rga_usage);;
  let '(rga_aclk_freq, obj) := QJsonObject.index "rga_aclk_freq" obj in
  setText Ui.freqRGA1
    (QString.number (QJsonValue.toDouble rga_aclk_freq / 1000000)%float 2 +:+ " GHz");;

  let '(memory_usage, obj) := QJsonObject.index "memory_usage" obj in
  setValue Ui.barMem (QJsonValue.toDouble memory_usage);;
  let '(swap_usage, obj) := QJsonObject.index "swap_usage" obj in
  setValue Ui.barSwap (QJsonValue.toDouble swap_usage);;

  let '(temperature, obj) := QJsonObject.index "temperature" obj in
  setValue Ui.barTemp (QJsonValue.toDouble temperature / 1000)%float;;
  let '(temperature', obj) := QJsonObject.index "temperature" obj in
  setText Ui.freqTemp
    (QString.number (QJsonValue.toDouble temperature' / 1000)%float 1 +:+ " °C");;

  let '(fan_state, obj) := QJsonObject.index "fan_state" obj in
  setValue_int Ui.barFan (QJsonValue.toInt fan_state).

(** [void Dialog::updateDataFromRust()], one refresh cycle.  [answer] is
    what the provider answers at this call. *)
Definition updateDataFromRust (answer : option string) : cmd unit :=
  json_str ← get_system_metrics_json answer;
  match json_str with
  | Some p =>
      json_qstr ← fromUtf8 p;
      free_string p;;
      let doc := QJsonDocument.fromJson (QString.toUtf8 json_qstr) in
      let obj := QJsonDocument.object doc in
      show obj
  | None => mret tt
  end.

(** The timer of the constructor: every timeout runs one cycle.
    [answers] lists what the provider answers tick after tick. *)
Fixpoint run (answers : list (option string)) : cmd unit :=
  match answers with
  | [] => mret tt
  | answer :: rest => updateDataFromRust answer;; run rest
  end.

End Dialog.

(** * The vocabulary of the properties *)

(** ** What a cycle reads and shows *)

(** The value [obj[key]] reads: the one stored, [Null] for a key without
    value (the one [index] creates). *)
Definition find (key : string) (o : QJsonObject.t) : QJsonValue.t :=
  default QJsonValue.Null (o !! key).

(** The snapshot a payload decodes to: the object of the document. *)
Definition snapshot (payload : string) : QJsonObject.t :=
  QJsonDocument.object (QJsonDocument.fromJson payload).

(** The transforms of lines 33 to 51, on the value read. *)
Definition usage (v : QJsonValue.t) : Ui.content :=
  Ui.Real (QJsonValue.toDouble v).
Definition freq (v : QJsonValue.t) : Ui.content :=
  Ui.Text (QString.number (QJsonValue.toDouble v / 1000000)%float 2 +:+ " GHz").
Definition temp_value (v : QJsonValue.t) : Ui.content :=
  Ui.Real (QJsonValue.toDouble v / 1000)%float.
Definition temp_text (v : QJsonValue.t) : Ui.content :=
  Ui.Text (QString.number (QJsonValue.toDouble v / 1000)%float 1 +:+ " °C").
Definition level (v : QJsonValue.t) : Ui.content :=
  Ui.Int (QJsonValue.toInt v).

(** The field of the payload a widget shows, and how. *)
Definition source (w : Ui.widget) : string :=
  match w with
  | Ui.barCPU1 => "cpu_usage" | Ui.freqCPU1 => "cpu_freq"
  | Ui.barGPU => "gpu_usage" | Ui.freqGPU => "gpu_freq"
  | Ui.barNPU1 => "npu_usage" | Ui.freqNPU1 => "npu_freq"
  | Ui.barRGA1 => "rga_usage" | Ui.freqRGA1 => "rga_aclk_freq"
  | Ui.barMem => "memory_usage" | Ui.barSwap => "swap_usage"
  | Ui.barTemp => "temperature" | Ui.freqTemp => "temperature"
  | Ui.barFan => "fan_state"
  end.

Definition transform (w : Ui.widget) : QJsonValue.t -> Ui.content :=
  match w with
  | Ui.barCPU1 | Ui.barGPU | Ui.barNPU1 | Ui.barRGA1 | Ui.barMem | Ui.barSwap => usage
  | Ui.freqCPU1 | Ui.freqGPU | Ui.freqNPU1 | Ui.freqRGA1 => freq
  | Ui.barTemp => temp_value
  | Ui.freqTemp => temp_text
  | Ui.barFan => level
  end.

(** What a widget shows for the value zero. *)
Definition blank (w : Ui.widget) : Ui.content :=
  match w with
  | Ui.barCPU1 | Ui.barGPU | Ui.barNPU1 | Ui.barRGA1 | Ui.barMem | Ui.barSwap
  | Ui.barTemp => Ui.Real 0
  | Ui.freqCPU1 | Ui.freqGPU | Ui.freqNPU1 | Ui.freqRGA1 => Ui.Text "0.00 GHz"
  | Ui.freqTemp => Ui.Text "0.0 °C"
  | Ui.barFan => Ui.Int 0
  end.

(** The call a cycle makes on a widget, and the calls it makes on all. *)
Definition written (obj : QJsonObject.t) (w : Ui.widget) : Ui.call :=
  Ui.Call w (transform w (find (source w) obj)).

Definition calls (obj : QJsonObject.t) : list Ui.call :=
  written obj <$> Ui.widgets.

(** The display in which every widget shows zero. *)
Definition blank_display : Ui.DisplayState :=
  Ui.exec_all ((fun w => Ui.Call w (blank w)) <$> Ui.widgets) ∅.

(** The labels that show a frequency. *)
Definition freq_widgets : list Ui.widget :=
  [Ui.freqCPU1; Ui.freqGPU; Ui.freqNPU1; Ui.freqRGA1].

(** ** What a cycle does *)

(** The display a command leaves. *)
Definition display_of {A} (c : Dialog.cmd A) (st : Dialog.state)
  : option Ui.DisplayState :=
  '(_, _, st') ← c st; Some (Dialog.ui st').

(** The display after a cycle. *)
Definition display_after (answer : option string) (st : Dialog.state)
  : option Ui.DisplayState :=
  display_of (Dialog.updateDataFromRust answer) st.

(** The display after the cycles of a run of the timer. *)
Definition display_run (answers : list (option string)) (st : Dialog.state)
  : option Ui.DisplayState :=
  display_of (Dialog.run answers) st.

(** The events of a cycle that concern the provider. *)
Definition provider_events (evs : list Dialog.event) : list Dialog.event :=
  List.filter (fun e => match e with Dialog.Widget _ => false | _ => true end) evs.

(** The calls on the widgets among the events of a cycle. *)
Definition widget_calls (evs : list Dialog.event) : list Ui.call :=
  omap (fun e => match e with Dialog.Widget c => Some c | _ => None end) evs.

(** The number of times the provider was asked. *)
Definition asked (evs : list Dialog.event) : nat :=
  length (List.filter (fun e => match e with Dialog.Get _ => true | _ => false end) evs).

(** ** Texts in fixed notation *)

Fixpoint all_digits (s : string) : bool :=
  match s with
  | EmptyString => true
  | String c r => JsonText.is_digit c && all_digits r
  end.

(** A text in fixed notation with [prec] decimals: an optional minus sign,
    one digit or more, a point, and exactly [prec] digits. *)
Definition fixed_notation (prec : nat) (s : string) : Prop :=
  exists sign int frac,
    s = sign +:+ int +:+ "." +:+ frac
    /\ (sign = "" \/ sign = "-")
    /\ int <> "" /\ all_digits int = true
    /\ all_digits frac = true /\ String.length frac = prec.

(** ** Payloads and states of the examples *)

(** The text of a payload, written with ['] for the quotation mark. *)
Fixpoint json (s : string) : string :=
  match s with
  | String c r => String (if Ascii.eqb c "'" then ascii_of_nat 34 else c) (json r)
  | EmptyString => EmptyString
  end.

Definition st0 : Dialog.state := Dialog.State ∅ ∅.

(** The end-to-end snapshot of the specification. *)
Definition payload_partial : string :=
  json "{'cpu_usage': 37.2, 'cpu_freq': 1800000000, 'temperature': 52300, 'fan_state': 2}".

Definition payload_gpu : string := json "{'gpu_usage': 55, 'gpu_freq': 900000}".

(** An object with the one field [key], of value [num]. *)
Definition one_field (key num : string) : string :=
  json ("{'" +:+ key +:+ "': " +:+ num +:+ "}").

(** ** Runs of the timer and kinds of widgets *)

(** The gauges that show a usage. *)
Definition usage_widgets : list Ui.widget :=
  [Ui.barCPU1; Ui.barGPU; Ui.barNPU1; Ui.barRGA1; Ui.barMem; Ui.barSwap].

Definition is_number (v : QJsonValue.t) : bool :=
  match v with
  | QJsonValue.Double _ => true
  | _ => false
  end.

(** The display a payload leaves on a display that showed nothing. *)
Definition rendered (payload : string) : Ui.DisplayState :=
  Ui.exec_all (calls (snapshot payload)) ∅.

(** The last payload among the answers of a run, if there is one. *)
Fixpoint last_payload (answers : list (option string)) : option string :=
  match answers with
  | [] => None
  | answer :: rest =>
      match last_payload rest with
      | Some payload => Some payload
      | None => answer
      end
  end.

(** What a tick does with the provider, [p] being the buffer handed out. *)
Definition tick_events (p : Provider.ptr) (answer : option string)
  : list Dialog.event :=
  match answer with
  | Some _ => [Dialog.Get (Some p); Dialog.Free p]
  | None => [Dialog.Get None]
  end.

(** A gauge is given a [double], the fan gauge an [int], a label a text. *)
Inductive kind := Number | Level | Label.

Definition kind_of_widget (w : Ui.widget) : kind :=
  match w with
  | Ui.barCPU1 | Ui.barGPU | Ui.barNPU1 | Ui.barRGA1 | Ui.barMem | Ui.barSwap
  | Ui.barTemp => Number
  | Ui.freqCPU1 | Ui.freqGPU | Ui.freqNPU1 | Ui.freqRGA1 | Ui.freqTemp => Label
  | Ui.barFan => Level
  end.

Definition kind_of_content (c : Ui.content) : kind :=
  match c with
  | Ui.Real _ => Number
  | Ui.Int _ => Level
  | Ui.Text _ => Label
  end.

(** Every widget that shows something shows something of its kind. *)
Definition well_typed (ds : Ui.DisplayState) : Prop :=
  forall w c, ds !! w = Some c -> kind_of_content c = kind_of_widget w.

(** Every widget shows something. *)
Definition complete (ds : Ui.DisplayState) : Prop :=
  forall w, is_Some (ds !! w).

(** * The decoder never runs out of fuel *)

Module JsonTextFacts.
Import JsonText.

Lemma eatSpace_length s : (String.length (eatSpace s) <= String.length s)%nat.
Proof.
  induction s as [|c r IH]; [reflexivity|].
  cbn [eatSpace]. destruct (is_space c); cbn [String.length]; lia.
Qed.

Lemma strip_length p : forall s r,
  strip p s = Some r -> (String.length r + String.length p = String.length s)%nat.
Proof.
  induction p as [|a p IH]; intros s r H.
  - destruct s; injection H as <-; cbn [String.length]; lia.
  - destruct s as [|b s]; [discriminate|]. cbn [strip] in H.
    destruct (Ascii.eqb a b); [|discriminate].
    apply IH in H. cbn [String.length]. lia.
Qed.

Lemma digits_of_length s : forall acc n v n' r,
  digits_of s acc n = (v, n', r) ->
  n <= n' /\ Z.of_nat (String.length r) + (n' - n) = Z.of_nat (String.length s).
Proof.
  induction s as [|c s IH]; intros acc n v n' r H; cbn [digits_of] in H.
  - injection H as <- <- <-. lia.
  - destruct (is_digit c).
    + apply IH in H. cbn [String.length]. lia.
    + injection H as <- <- <-. lia.
Qed.

Lemma parseInt_length s v r :
  parseInt s = Some (v, r) -> (String.length r < String.length s)%nat.
Proof.
  unfold parseInt. destruct s as [|c s]; [discriminate|].
  destruct (code c =? 48).
  - intros [= <- <-]. cbn [String.length]. lia.
  - destruct (digits_of (String c s) 0 0) as [[v' n] r'] eqn:E.
    apply digits_of_length in E.
    destruct (0 <? n) eqn:Hn; [|discriminate].
    intros [= <- <-]. apply Z.ltb_lt in Hn. lia.
Qed.

Lemma parseFrac_length mant s v n r :
  parseFrac mant s = Some (v, n, r) -> (String.length r <= String.length s)%nat.
Proof.
  unfold parseFrac. destruct s as [|c s]; [intros [= <- <- <-]; lia|].
  destruct (code c =? 46).
  - destruct (digits_of s mant 0) as [[v' n'] r'] eqn:E.
    apply digits_of_length in E.
    destruct (0 <? n'); [|discriminate].
    intros [= <- <- <-]. cbn [String.length]. lia.
  - intros [= <- <- <-]. lia.
Qed.

Lemma parseExp_length s v r :
  parseExp s = Some (v, r) -> (String.length r <= String.length s)%nat.
Proof.
  unfold parseExp. destruct s as [|c s]; [intros [= <- <-]; lia|].
  destruct ((code c =? 101) || (code c =? 69)); [|intros [= <- <-]; lia].
  set (sg := match s with
             | String d r' =>
                 if code d =? 45 then (true, r')
                 else if code d =? 43 then (false, r')
                 else (false, s)
             | EmptyString => (false, s)
             end).
  assert (Hs : (String.length sg.2 <= String.length s)%nat).
  { subst sg. destruct s as [|d r']; [reflexivity|].
    destruct (code d =? 45); [cbn [snd String.length]; lia|].
    destruct (code d =? 43); cbn [snd String.length]; lia. }
  destruct sg as [neg r1]. cbn [snd] in Hs.
  destruct (digits_of r1 0 0) as [[v' n'] r'] eqn:E.
  apply digits_of_length in E. destruct (0 <? n'); [|discriminate].
  intros [= <- <-]. cbn [String.length]. lia.
Qed.

Lemma parseNumber_length s :
  parseNumber s <> OutOfFuel
  /\ forall d r, parseNumber s = Ok d r -> (String.length r < String.length s)%nat.
Proof.
  unfold parseNumber.
  set (sg := match s with
             | String c r => if code c =? 45 then (true, r) else (false, s)
             | EmptyString => (false, s)
             end).
  assert (Hs : (String.length sg.2 <= String.length s)%nat).
  { subst sg. destruct s as [|c r]; [reflexivity|].
    destruct (code c =? 45); cbn [snd String.length]; lia. }
  destruct sg as [neg s0]. cbn [snd] in Hs.
  destruct (parseInt s0) as [[i s1]|] eqn:E1; [|split; [discriminate|discriminate]].
  apply parseInt_length in E1.
  destruct (parseFrac i s1) as [[[mant nfrac] s2]|] eqn:E2; [|split; discriminate].
  apply parseFrac_length in E2.
  destruct (parseExp s2) as [[e s3]|] eqn:E3; [|split; discriminate].
  apply parseExp_length in E3.
  destruct (Dbl.of_decimal neg mant (e - nfrac)); try (split; discriminate).
  - destruct (mant =? 0); split; try discriminate. intros d r [= <- <-]. lia.
  - split; [discriminate|]. intros d r [= <- <-]. lia.
Qed.

Lemma consumes_Err {A} n : consumes n (@Err A).
Proof. split; [discriminate|]. intros a r H. discriminate H. Qed.

Lemma consumes_Ok {A} n (a : A) r : (String.length r < n)%nat -> consumes n (Ok a r).
Proof. intros H. split; [discriminate|]. intros a' r' [= <- <-]. exact H. Qed.

Lemma consumes_le {A} n m (x : res A) : (n <= m)%nat -> consumes n x -> consumes m x.
Proof.
  intros Hnm [H1 H2]. split; [exact H1|].
  intros a r H. apply H2 in H. lia.
Qed.

Ltac string_cases :=
  repeat
    (cbv beta iota zeta;
     match goal with
     | |- context [if ?b then _ else _] => destruct b
     | |- context [match ?x with String _ _ => _ | EmptyString => _ end] =>
         is_var x; destruct x
     | |- context [match hex4 ?a ?b ?c ?d with _ => _ end] =>
         destruct (hex4 a b c d)
     end).

Lemma parseString_length n : forall s acc,
  (String.length s <= n)%nat -> consumes (String.length s) (parseString s acc).
Proof.
  induction n as [|n IH]; intros s acc Hn.
  - destruct s; [apply consumes_Err|cbn [String.length] in Hn; lia].
  - destruct s as [|c r0]; [apply consumes_Err|].
    cbn [parseString]. string_cases;
      first
        [ apply consumes_Err
        | apply consumes_Ok; cbn [String.length]; lia
        | eapply consumes_le; [|apply IH; cbn [String.length] in *; lia];
          cbn [String.length]; lia ].
Qed.

Lemma consumes_strip {A} p s (k : string -> res A) :
  (0 < String.length p)%nat ->
  (forall r, consumes (S (String.length r)) (k r)) ->
  consumes (String.length s)
    match strip p s with
    | Some r' => k r'
    | None => Err
    end.
Proof.
  intros Hp Hk. destruct (strip p s) as [r'|] eqn:E; [|apply consumes_Err].
  apply strip_length in E. eapply consumes_le; [|apply Hk]. lia.
Qed.

(** With fuel for twice the bytes of the text, the three functions give
    an answer, and an [Ok] has consumed something. *)
Lemma parseValue_fuel fuel :
  (forall s, (2 * String.length s + 1 <= fuel)%nat ->
             consumes (String.length s) (parseValue fuel s))
  /\ (forall s acc, (2 * String.length s + 2 <= fuel)%nat ->
                    consumes (String.length s) (parseElements fuel s acc))
  /\ (forall s acc, (2 * String.length s + 2 <= fuel)%nat ->
                    consumes (String.length s) (parseMembers fuel s acc)).
Proof.
  induction fuel as [|f (IHv & IHe & IHm)].
  { repeat split; intros; lia. }
  split; [|split].
  - intros s Hf. destruct s as [|c r]; [apply consumes_Err|].
    cbn [parseValue]. cbn [String.length] in Hf.
    pose proof (eatSpace_length r) as Hsp.
    destruct (code c =? 123).
    { destruct (eatSpace r) as [|d r'] eqn:E; [apply consumes_Err|].
      destruct (code d =? 125).
      - apply consumes_Ok. cbn [String.length] in *. lia.
      - eapply consumes_le; [|apply IHm; lia]. cbn [String.length] in *. lia. }
    destruct (code c =? 91).
    { destruct (eatSpace r) as [|d r'] eqn:E; [apply consumes_Err|].
      destruct (code d =? 93).
      - apply consumes_Ok. cbn [String.length] in *. lia.
      - eapply consumes_le; [|apply IHe; lia]. cbn [String.length] in *. lia. }
    destruct (code c =? 34).
    { destruct (parseString_length _ r "" (le_n _)) as [H1 H2].
      destruct (parseString r "") as [str r'| |] eqn:E;
        [|apply consumes_Err|congruence].
      apply consumes_Ok. specialize (H2 _ _ eq_refl). cbn [String.length]. lia. }
    destruct (code c =? 116).
    { apply (consumes_strip "true" (String c r)); [cbn; lia|].
      intros r0. apply consumes_Ok. lia. }
    destruct (code c =? 102).
    { apply (consumes_strip "false" (String c r)); [cbn; lia|].
      intros r0. apply consumes_Ok. lia. }
    destruct (code c =? 110).
    { apply (consumes_strip "null" (String c r)); [cbn; lia|].
      intros r0. apply consumes_Ok. lia. }
    destruct (parseNumber_length (String c r)) as [H1 H2].
    destruct (parseNumber (String c r)) as [d r'| |] eqn:E;
      [|apply consumes_Err|congruence].
    apply consumes_Ok. apply (H2 _ _ eq_refl).
  - intros s acc Hf. cbn [parseElements].
    destruct (IHv s ltac:(lia)) as [H1 H2].
    destruct (parseValue f s) as [v r| |] eqn:E; [|apply consumes_Err|congruence].
    specialize (H2 _ _ eq_refl). pose proof (eatSpace_length r) as Hsp.
    destruct (eatSpace r) as [|c r'] eqn:E'; [apply consumes_Err|].
    cbn [String.length] in Hsp. pose proof (eatSpace_length r') as Hsp'.
    destruct (code c =? 44).
    { eapply consumes_le; [|apply IHe; lia]. lia. }
    destruct (code c =? 93); [|apply consumes_Err].
    apply consumes_Ok. lia.
  - intros s acc Hf. cbn [parseMembers].
    destruct s as [|q r]; [apply consumes_Err|]. cbn [String.length] in Hf.
    destruct (code q =? 34); [|apply consumes_Err].
    destruct (parseString_length _ r "" (le_n _)) as [H1 H2].
    destruct (parseString r "") as [key r1| |] eqn:E;
      [|apply consumes_Err|congruence].
    specialize (H2 _ _ eq_refl). pose proof (eatSpace_length r1) as Hsp1.
    destruct (eatSpace r1) as [|c r2] eqn:E1; [apply consumes_Err|].
    cbn [String.length] in Hsp1. pose proof (eatSpace_length r2) as Hsp2.
    destruct (code c =? 58); [|apply consumes_Err].
    destruct (IHv (eatSpace r2) ltac:(lia)) as [H3 H4].
    destruct (parseValue f (eatSpace r2)) as [v r3| |] eqn:E2;
      [|apply consumes_Err|congruence].
    specialize (H4 _ _ eq_refl). pose proof (eatSpace_length r3) as Hsp3.
    destruct (eatSpace r3) as [|d r4] eqn:E3; [apply consumes_Err|].
    cbn [String.length] in Hsp3. pose proof (eatSpace_length r4) as Hsp4.
    destruct (code d =? 44).
    { eapply consumes_le; [|apply IHm; lia]. cbn [String.length]. lia. }
    destruct (code d =? 125); [|apply consumes_Err].
    apply consumes_Ok. cbn [String.length]. lia.
Qed.

(** [parse] gives its text enough fuel: a null document is a text that is
    not JSON, never a decoder that gave up. *)
Lemma parse_not_OutOfFuel s : parse s <> OutOfFuel.
Proof.
  unfold parse. destruct (eatSpace s) as [|c r] eqn:E; [discriminate|].
  destruct ((code c =? 123) || (code c =? 91)); [|discriminate].
  destruct (proj1 (parseValue_fuel (2 * String.length (String c r) + 2))
              (String c r) ltac:(lia)) as [H1 _].
  destruct (parseValue _ (String c r)) as [v r'| |]; [|discriminate|congruence].
  destruct (eatSpace r'); discriminate.
Qed.
End JsonTextFacts.

(** * The fixed notation of [QString::number] *)

Lemma digit_is_digit n : JsonText.is_digit (QString.digit n) = true.
Proof.
  unfold QString.digit.
  assert (H : (Z.to_nat (n mod 10) < 10)%nat)
    by (pose proof (Z.mod_pos_bound n 10); lia).
  revert H. generalize (Z.to_nat (n mod 10)) as k. intros k H.
  do 10 (destruct k as [|k]; [reflexivity|]). lia.
Qed.

Lemma all_digits_app s1 s2 :
  all_digits (s1 +:+ s2) = all_digits s1 && all_digits s2.
Proof.
  induction s1 as [|c s1 IH]; [reflexivity|].
  simpl. rewrite IH. apply andb_assoc.
Qed.

Lemma length_app_string s1 s2 :
  String.length (s1 +:+ s2) = (String.length s1 + String.length s2)%nat.
Proof. induction s1 as [|c s1 IH]; [reflexivity|]. simpl. rewrite IH. reflexivity. Qed.

Lemma fixed_digits_all width : forall n,
  all_digits (QString.fixed_digits width n) = true
  /\ String.length (QString.fixed_digits width n) = width.
Proof.
  induction width as [|w IH]; intros n; [split; reflexivity|].
  destruct (IH (n / 10)) as [Hd Hl]. cbn [QString.fixed_digits]. split.
  - rewrite all_digits_app, Hd. cbn [all_digits andb].
    rewrite digit_is_digit. reflexivity.
  - rewrite length_app_string, Hl. cbn [String.length]. lia.
Qed.

Lemma digits_go_all fuel : forall n acc,
  all_digits acc = true -> all_digits (QString.digits_go fuel n acc) = true.
Proof.
  induction fuel as [|f IH]; intros n acc Hacc; [exact Hacc|].
  cbn [QString.digits_go].
  assert (H : all_digits (String (QString.digit n) acc) = true)
    by (cbn [all_digits]; rewrite digit_is_digit; exact Hacc).
  destruct (n / 10 =? 0); [exact H|]. apply IH. exact H.
Qed.

Lemma digits_go_nonempty fuel : forall n acc,
  acc <> "" -> QString.digits_go fuel n acc <> "".
Proof.
  induction fuel as [|f IH]; intros n acc Hacc; [exact Hacc|].
  cbn [QString.digits_go]. destruct (n / 10 =? 0); [discriminate|].
  apply IH. discriminate.
Qed.

Lemma digits_all n : all_digits (QString.digits n) = true /\ QString.digits n <> "".
Proof.
  unfold QString.digits. split.
  - apply digits_go_all. reflexivity.
  - cbn [QString.digits_go]. destruct (n / 10 =? 0); [discriminate|].
    apply digits_go_nonempty. discriminate.
Qed.

Lemma decimalForm_fixed prec n :
  (0 < prec)%nat ->
  exists int frac,
    QString.decimalForm prec n = int +:+ "." +:+ frac
    /\ int <> "" /\ all_digits int = true
    /\ all_digits frac = true /\ String.length frac = prec.
Proof.
  intros Hp. unfold QString.decimalForm. destruct prec as [|p]; [lia|].
  eexists _, _. split; [reflexivity|].
  destruct (digits_all (n / 10 ^ Z.of_nat (S p))) as [Ha Hn].
  destruct (fixed_digits_all (S p) (n mod 10 ^ Z.of_nat (S p))) as [Hd Hl].
  auto.
Qed.

(** [number] with a positive number of decimals gives the fixed notation
    of every finite number; only an infinity or a NaN has another text. *)
Lemma number_fixed d prec :
  (0 < prec)%nat ->
  if Dbl.is_finite d then fixed_notation prec (QString.number d prec)
  else QString.number d prec ∈ ["inf"; "-inf"; "nan"].
Proof.
  intros Hp. unfold Dbl.is_finite, QString.number, fixed_notation.
  destruct (Prim2SF d) as [s|s| |s m e].
  - destruct (decimalForm_fixed prec 0 Hp) as (int & frac & E & H).
    exists "", int, frac. rewrite E. auto.
  - destruct s; set_solver.
  - set_solver.
  - destruct (decimalForm_fixed prec (Dbl.scaled prec m e) Hp) as (int & frac & E & H).
    exists (if s then "-" else ""), int, frac. rewrite E.
    split; [reflexivity|]. split; [destruct s; auto|exact H].
Qed.

Example number_f2_2400 : QString.number 2400 2 = "2400.00".
Proof. vm_compute. reflexivity. Qed.
Example number_f2_third : QString.number (1 / 3) 2 = "0.33".
Proof. vm_compute. reflexivity. Qed.
Example number_f2_negative : QString.number (-0.001) 2 = "-0.00".
Proof. vm_compute. reflexivity. Qed.
Example number_f2_large : QString.number 1e22 2 = "10000000000000000000000.00".
Proof. vm_compute. reflexivity. Qed.
Example number_f1_round : QString.number 52.349 1 = "52.3".
Proof. vm_compute. reflexivity. Qed.
Example of_decimal_2_7 : SF2Prim (Dbl.of_decimal false 27 (-1)) = 2.7%float.
Proof. vm_compute. reflexivity. Qed.
Example of_decimal_subnormal : SF2Prim (Dbl.of_decimal false 49 (-325)) = 4.9e-324%float.
Proof. vm_compute. reflexivity. Qed.

(** * Reading the local object *)

Lemma index_fst key o : (QJsonObject.index key o).1 = find key o.
Proof. unfold QJsonObject.index, find. destruct (o !! key); reflexivity. Qed.

(** A read leaves every later read as it was. *)
Lemma find_index key key' o : find key' (QJsonObject.index key o).2 = find key' o.
Proof.
  unfold QJsonObject.index, find.
  destruct (o !! key) eqn:E; simpl; [reflexivity|].
  destruct (decide (key = key')) as [<-|Hne].
  - rewrite lookup_insert_eq, E. reflexivity.
  - rewrite lookup_insert_ne by assumption. reflexivity.
Qed.

Lemma index_eq key o o0 :
  (forall k, find k o = find k o0) ->
  exists o', QJsonObject.index key o = (find key o0, o')
             /\ forall k, find k o' = find k o0.
Proof.
  intros H. exists (QJsonObject.index key o).2. split.
  - rewrite <- H, <- index_fst. destruct (QJsonObject.index key o); reflexivity.
  - intros k. rewrite find_index. apply H.
Qed.

(** [show] makes one call per widget, in the order of [Ui.widgets], each
    with the transform of the field it shows: the reads do not disturb one
    another. *)
Lemma show_from obj o st :
  (forall k, find k o = find k obj) ->
  Dialog.show o st
  = Some (tt, Dialog.Widget <$> calls obj,
          Dialog.State (Ui.exec_all (calls obj) (Dialog.ui st)) (Dialog.heap st)).
Proof.
  intros H. unfold Dialog.show.
  repeat
    match goal with
    | |- context [QJsonObject.index ?k ?o1] =>
        let o' := fresh "o" in
        let E := fresh "E" in
        let H' := fresh "H" in
        destruct (index_eq k o1 obj ltac:(assumption)) as (o' & E & H');
        rewrite E; clear E
    end.
  reflexivity.
Qed.

Lemma show_spec obj st :
  Dialog.show obj st
  = Some (tt, Dialog.Widget <$> calls obj,
          Dialog.State (Ui.exec_all (calls obj) (Dialog.ui st)) (Dialog.heap st)).
Proof. apply show_from. reflexivity. Qed.

(** * The display after the calls of a cycle *)

Lemma exec_all_show_lookup obj ds w :
  Ui.exec_all (calls obj) ds !! w = Some (transform w (find (source w) obj)).
Proof.
  unfold calls, Ui.exec_all, Ui.exec, Ui.widgets, written. simpl.
  destruct w; simplify_map_eq; reflexivity.
Qed.

(** All thirteen widgets are written, so nothing of the display before the
    calls is left. *)
Lemma exec_all_show_any obj ds ds' :
  Ui.exec_all (calls obj) ds = Ui.exec_all (calls obj) ds'.
Proof. apply map_eq. intros w. rewrite !exec_all_show_lookup. reflexivity. Qed.

(** A key without value reads as [Null], whose transform is that of zero. *)
Lemma transform_absent obj w :
  obj !! source w = None -> transform w (find (source w) obj) = blank w.
Proof.
  intros H. unfold find. rewrite H. simpl.
  destruct w; vm_compute; reflexivity.
Qed.

Lemma blank_display_lookup w : blank_display !! w = Some (blank w).
Proof. destruct w; vm_compute; reflexivity. Qed.

Lemma exec_all_show_empty ds : Ui.exec_all (calls ∅) ds = blank_display.
Proof.
  apply map_eq. intros w.
  rewrite exec_all_show_lookup, blank_display_lookup, transform_absent; [reflexivity|].
  apply lookup_empty.
Qed.

Lemma widgets_all w : w ∈ Ui.widgets.
Proof. destruct w; unfold Ui.widgets; set_solver. Qed.

Lemma widgets_NoDup : NoDup Ui.widgets.
Proof. apply (bool_decide_unpack (NoDup Ui.widgets)). vm_compute. exact I. Qed.

Lemma widget_calls_widgets cs : widget_calls (Dialog.Widget <$> cs) = cs.
Proof. induction cs as [|c cs IH]; [reflexivity|]. cbn. f_equal. exact IH. Qed.

Lemma widget_calls_cycle p cs :
  widget_calls (Dialog.Get (Some p) :: Dialog.Free p :: (Dialog.Widget <$> cs)) = cs.
Proof. exact (widget_calls_widgets cs). Qed.

(** * One cycle *)

(** A cycle on a payload: the buffer handed out is read, released, and
    the heap is as before; the widgets get the calls of [show]. *)
Lemma updateDataFromRust_payload payload st :
  let p := fresh (dom (Dialog.heap st)) in
  Dialog.updateDataFromRust (Some payload) st =
    Some (tt,
          Dialog.Get (Some p) :: Dialog.Free p
            :: (Dialog.Widget <$> calls (snapshot payload)),
          Dialog.State (Ui.exec_all (calls (snapshot payload)) (Dialog.ui st))
                       (Dialog.heap st)).
Proof.
  intros p.
  unfold Dialog.updateDataFromRust, Dialog.get_system_metrics_json,
    Provider.get_system_metrics_json, mbind, Dialog.cmd_bind.
  fold p. cbn [Dialog.heap Dialog.ui].
  unfold Dialog.fromUtf8, Dialog.free_string, Provider.read, Provider.free_string.
  cbn [Dialog.heap Dialog.ui]. rewrite lookup_insert_eq.
  cbn [Dialog.heap Dialog.ui]. rewrite lookup_insert_eq.
  rewrite delete_insert_id by (apply not_elem_of_dom, is_fresh).
  rewrite show_spec. reflexivity.
Qed.

(** A cycle on the null pointer does nothing but ask. *)
Lemma updateDataFromRust_null st :
  Dialog.updateDataFromRust None st = Some (tt, [Dialog.Get None], st).
Proof. destruct st. reflexivity. Qed.

Lemma display_after_payload payload st :
  display_after (Some payload) st
  = Some (Ui.exec_all (calls (snapshot payload)) (Dialog.ui st)).
Proof.
  unfold display_after, display_of. rewrite updateDataFromRust_payload. reflexivity.
Qed.

Lemma display_after_null st : display_after None st = Some (Dialog.ui st).
Proof.
  unfold display_after, display_of. rewrite updateDataFromRust_null. reflexivity.
Qed.

Lemma display_after_lookup payload st w :
  (display_after (Some payload) st ≫= (.!! w))
  = Some (transform w (find (source w) (snapshot payload))).
Proof.
  rewrite display_after_payload. cbn [mbind option_bind].
  apply exec_all_show_lookup.
Qed.

Lemma freq_widgets_cases (P : Ui.widget -> Prop) w :
  w ∈ freq_widgets ->
  P Ui.freqCPU1 -> P Ui.freqGPU -> P Ui.freqNPU1 -> P Ui.freqRGA1 -> P w.
Proof.
  unfold freq_widgets. intros H. rewrite !elem_of_cons in H.
  destruct H as [->|[->|[->|[->|H]]]]; auto. set_solver.
Qed.

(** The end-to-end snapshot of the specification, on a display that
    showed the GPU before: the fields it has are shown, the GPU widgets go
    back to zero. *)
Example end_to_end_partial :
  (fun ds => (fun w => ds !! w) <$> Ui.widgets)
    <$> display_run [Some payload_gpu; Some payload_partial] st0
  = Some [Some (Ui.Real 37.2); Some (Ui.Text "1800.00 GHz");
          Some (Ui.Real 0); Some (Ui.Text "0.00 GHz");
          Some (Ui.Real 0); Some (Ui.Text "0.00 GHz");
          Some (Ui.Real 0); Some (Ui.Text "0.00 GHz");
          Some (Ui.Real 0); Some (Ui.Real 0);
          Some (Ui.Real 52.3); Some (Ui.Text "52.3 °C");
          Some (Ui.Int 2)].
Proof. vm_compute. reflexivity. Qed.

(** The events of a cycle on the empty object, from an empty heap. *)
Example events_empty_object :
  (fun r => provider_events r.1.2) <$> Dialog.updateDataFromRust (Some "{}") st0
  = Some [Dialog.Get (Some 1%positive); Dialog.Free 1%positive].
Proof. vm_compute. reflexivity. Qed.

(** * The timer *)

Lemma asked_app evs evs' : asked (evs ++ evs') = (asked evs + asked evs')%nat.
Proof. unfold asked. rewrite List.filter_app, length_app. reflexivity. Qed.

Lemma asked_widgets cs : asked (Dialog.Widget <$> cs) = 0%nat.
Proof. induction cs as [|c cs IH]; [reflexivity|exact IH]. Qed.

Lemma bind_Some {A B} (c : Dialog.cmd A) (k : A -> Dialog.cmd B) st a evs st' :
  c st = Some (a, evs, st') ->
  (c ≫= k) st
  = match k a st' with
    | Some (b, evs', st'') => Some (b, (evs ++ evs')%list, st'')
    | None => None
    end.
Proof. intros H. unfold mbind, Dialog.cmd_bind. rewrite H. reflexivity. Qed.

(** A cycle never faults, leaves the heap as it found it and asks the
    provider once. *)
Lemma updateDataFromRust_total answer st :
  exists evs st',
    Dialog.updateDataFromRust answer st = Some (tt, evs, st')
    /\ Dialog.heap st' = Dialog.heap st /\ asked evs = 1%nat.
Proof.
  destruct answer as [payload|].
  - eexists _, _. rewrite updateDataFromRust_payload. split; [reflexivity|].
    split; [reflexivity|]. unfold asked. cbn [List.filter length].
    f_equal; apply asked_widgets.
  - exists [Dialog.Get None], st. rewrite updateDataFromRust_null. auto.
Qed.

(** The timer serves every tick, whatever the provider answers. *)
Lemma run_total answers : forall st,
  exists evs st',
    Dialog.run answers st = Some (tt, evs, st')
    /\ Dialog.heap st' = Dialog.heap st /\ asked evs = length answers.
Proof.
  induction answers as [|answer rest IH]; intros st.
  - exists [], st. auto.
  - destruct (updateDataFromRust_total answer st) as (evs & st1 & E1 & Hh1 & Ha1).
    destruct (IH st1) as (evs' & st2 & E2 & Hh2 & Ha2).
    exists (evs ++ evs')%list, st2. cbn [Dialog.run].
    rewrite (bind_Some _ _ _ _ _ _ E1), E2.
    split; [reflexivity|]. split; [congruence|].
    rewrite asked_app, Ha1, Ha2. reflexivity.
Qed.

Lemma run_null rest st :
  Dialog.run (None :: rest) st
  = match Dialog.run rest st with
    | Some (u, evs, st') => Some (u, Dialog.Get None :: evs, st')
    | None => None
    end.
Proof.
  cbn [Dialog.run]. rewrite (bind_Some _ _ _ _ _ _ (updateDataFromRust_null st)).
  reflexivity.
Qed.

(** Releasing a buffer twice is a fault. *)
Lemma free_string_twice p h h' :
  Provider.free_string p h = Some h' -> Provider.free_string p h' = None.
Proof.
  unfold Provider.free_string. destruct (h !! p) eqn:E; [|discriminate].
  intros [= <-]. rewrite lookup_delete_eq. reflexivity.
Qed.

(** * The transforms (C1, C6, C7, C8) *)

(** C1, as stated, fails: the transform divides by 1,000,000, so an input
    of 2,400,000,000 is displayed as "2400.00 GHz", not as "2.40 GHz". *)
Lemma C1_frequency_counterexample :
  (display_after (Some (one_field "cpu_freq" "2400000000")) st0 ≫= (.!! Ui.freqCPU1))
    = Some (Ui.Text "2400.00 GHz")
  /\ (display_after (Some (one_field "cpu_freq" "2400000000")) st0 ≫= (.!! Ui.freqCPU1))
    <> Some (Ui.Text "2.40 GHz").
Proof.
  assert (H : (display_after (Some (one_field "cpu_freq" "2400000000")) st0
                 ≫= (.!! Ui.freqCPU1)) = Some (Ui.Text "2400.00 GHz"))
    by (vm_compute; reflexivity).
  split; [exact H|]. rewrite H. discriminate.
Qed.

(** C1, amended: for each of the four frequency fields, a cycle on an
    input of 2,400,000,000 displays "2400.00 GHz" (it is the input
    2,400,000 that displays "2.40 GHz"), and a cycle on the input 0
    displays "0.00 GHz", whatever was displayed before. *)
Theorem C1_frequency_examples (st : Dialog.state) (w : Ui.widget) :
  w ∈ freq_widgets ->
  (display_after (Some (one_field (source w) "2400000000")) st ≫= (.!! w))
    = Some (Ui.Text "2400.00 GHz")
  /\ (display_after (Some (one_field (source w) "2400000")) st ≫= (.!! w))
    = Some (Ui.Text "2.40 GHz")
  /\ (display_after (Some (one_field (source w) "0")) st ≫= (.!! w))
    = Some (Ui.Text "0.00 GHz").
Proof.
  intros Hw. pattern w. apply (freq_widgets_cases _ w Hw);
    rewrite !display_after_lookup; repeat split; vm_compute; reflexivity.
Qed.

(** C1, amended, at the label of the RGA clock. *)
Lemma C1_frequency_witness :
  (display_after (Some (one_field "rga_aclk_freq" "2400000000")) st0 ≫= (.!! Ui.freqRGA1))
    = Some (Ui.Text "2400.00 GHz")
  /\ (display_after (Some (one_field "rga_aclk_freq" "2400000")) st0 ≫= (.!! Ui.freqRGA1))
    = Some (Ui.Text "2.40 GHz")
  /\ (display_after (Some (one_field "rga_aclk_freq" "0")) st0 ≫= (.!! Ui.freqRGA1))
    = Some (Ui.Text "0.00 GHz").
Proof.
  apply (C1_frequency_examples st0 Ui.freqRGA1).
  apply (bool_decide_unpack (Ui.freqRGA1 ∈ freq_widgets)). vm_compute. exact I.
Defined.

(** C6: a cycle on the temperature 45500 gives the temperature gauge 45.5
    and the temperature label "45.5 °C"; in general a temperature present
    as a number [d] gives the gauge [d / 1000] and the label [d / 1000] in
    fixed notation with one decimal, followed by " °C". *)
Theorem C6_temperature :
  (forall st : Dialog.state,
      (display_after (Some (one_field "temperature" "45500")) st ≫= (.!! Ui.barTemp))
        = Some (Ui.Real 45.5)
      /\ (display_after (Some (one_field "temperature" "45500")) st ≫= (.!! Ui.freqTemp))
        = Some (Ui.Text "45.5 °C"))
  /\ (forall (payload : string) (st : Dialog.state) (d : float),
         snapshot payload !! "temperature" = Some (QJsonValue.Double d) ->
         (display_after (Some payload) st ≫= (.!! Ui.barTemp))
           = Some (Ui.Real (d / 1000))
         /\ (display_after (Some payload) st ≫= (.!! Ui.freqTemp))
           = Some (Ui.Text (QString.number (d / 1000) 1 +:+ " °C"))
         /\ (if Dbl.is_finite (d / 1000)
             then fixed_notation 1 (QString.number (d / 1000) 1)
             else QString.number (d / 1000) 1 ∈ ["inf"; "-inf"; "nan"])).
Proof.
  split.
  - intros st. rewrite !display_after_lookup. split; vm_compute; reflexivity.
  - intros payload st d Hd. rewrite !display_after_lookup.
    cbn [source]. unfold find. rewrite Hd.
    split; [reflexivity|]. split; [reflexivity|]. apply number_fixed. lia.
Qed.

(** C6 at the end-to-end snapshot of the specification: 52300 gives the
    gauge 52.3 and the label "52.3 °C". *)
Lemma C6_temperature_witness :
  snapshot payload_partial !! "temperature" = Some (QJsonValue.Double 52300)
  /\ (display_after (Some payload_partial) st0 ≫= (.!! Ui.barTemp))
     = Some (Ui.Real 52.3)
  /\ (display_after (Some payload_partial) st0 ≫= (.!! Ui.freqTemp))
     = Some (Ui.Text "52.3 °C").
Proof.
  assert (Hd : snapshot payload_partial !! "temperature" = Some (QJsonValue.Double 52300))
    by (vm_compute; reflexivity).
  split; [exact Hd|].
  destruct (proj2 C6_temperature payload_partial st0 52300%float Hd) as (Hg & Hl & _).
  split; [exact Hg|exact Hl].
Defined.

(** C7: for each of the four frequency fields present as a number [d],
    the label after the cycle is [d / 1000000] in fixed notation with two
    decimals, followed by " GHz"; the notation has exactly two digits
    after the point (for every finite quotient; a quotient that is not
    finite would read "inf", "-inf" or "nan"). *)
Theorem C7_frequency_label
  (payload : string) (st : Dialog.state) (w : Ui.widget) (d : float) :
  w ∈ freq_widgets ->
  snapshot payload !! source w = Some (QJsonValue.Double d) ->
  (display_after (Some payload) st ≫= (.!! w))
    = Some (Ui.Text (QString.number (d / 1000000) 2 +:+ " GHz"))
  /\ (if Dbl.is_finite (d / 1000000)
      then fixed_notation 2 (QString.number (d / 1000000) 2)
      else QString.number (d / 1000000) 2 ∈ ["inf"; "-inf"; "nan"]).
Proof.
  intros Hw Hd. split; [|apply number_fixed; lia].
  rewrite display_after_lookup. unfold find. rewrite Hd. clear Hd.
  pattern w. apply (freq_widgets_cases _ w Hw); reflexivity.
Qed.

(** C7 at a GPU frequency of 900000: the label is "0.90 GHz". *)
Lemma C7_frequency_witness :
  snapshot payload_gpu !! source Ui.freqGPU = Some (QJsonValue.Double 900000)
  /\ (display_after (Some payload_gpu) st0 ≫= (.!! Ui.freqGPU))
     = Some (Ui.Text "0.90 GHz")
  /\ fixed_notation 2 "0.90".
Proof.
  assert (Hd : snapshot payload_gpu !! source Ui.freqGPU = Some (QJsonValue.Double 900000))
    by (vm_compute; reflexivity).
  assert (Hw : Ui.freqGPU ∈ freq_widgets)
    by (apply (bool_decide_unpack (Ui.freqGPU ∈ freq_widgets)); vm_compute; exact I).
  split; [exact Hd|].
  exact (C7_frequency_label payload_gpu st0 Ui.freqGPU 900000%float Hw Hd).
Defined.

(** C8, as stated, fails: the fan state 2.7 is not truncated to 2; the
    fan gauge is given 0. *)
Lemma C8_fan_state_counterexample :
  snapshot (one_field "fan_state" "2.7") !! "fan_state" = Some (QJsonValue.Double 2.7)
  /\ (display_after (Some (one_field "fan_state" "2.7")) st0 ≫= (.!! Ui.barFan))
     = Some (Ui.Int 0)
  /\ (display_after (Some (one_field "fan_state" "2.7")) st0 ≫= (.!! Ui.barFan))
     <> Some (Ui.Int 2).
Proof.
  assert (H : (display_after (Some (one_field "fan_state" "2.7")) st0 ≫= (.!! Ui.barFan))
              = Some (Ui.Int 0)) by (vm_compute; reflexivity).
  split; [vm_compute; reflexivity|]. split; [exact H|]. rewrite H. discriminate.
Qed.

(** C8, amended: a fan state present as a number is decoded as a
    [double]; the fan gauge is given that number when it is a whole
    number in the range of [int], and 0 when it is not: nothing is
    truncated (2 gives the level 2, -3 the level -3, and 2.7 the level 0,
    as does a number beyond the range of [int]). *)
Theorem C8_fan_state_whole_or_zero
  (payload : string) (st : Dialog.state) (d : float) :
  snapshot payload !! "fan_state" = Some (QJsonValue.Double d) ->
  (display_after (Some payload) st ≫= (.!! Ui.barFan))
    = Some (Ui.Int (default 0 (Dbl.to_int d)))
  /\ Dbl.to_int 2 = Some 2 /\ Dbl.to_int (-3) = Some (-3)
  /\ Dbl.to_int 2.7 = None /\ Dbl.to_int 4294967296 = None.
Proof.
  intros Hd. split; [|repeat split; vm_compute; reflexivity].
  rewrite display_after_lookup. cbn [source transform]. unfold find. rewrite Hd.
  unfold level, QJsonValue.toInt, default, id. destruct (Dbl.to_int d); reflexivity.
Qed.

(** C8, amended, at the fan state 2 of the end-to-end snapshot. *)
Lemma C8_fan_state_witness :
  snapshot payload_partial !! "fan_state" = Some (QJsonValue.Double 2)
  /\ (display_after (Some payload_partial) st0 ≫= (.!! Ui.barFan)) = Some (Ui.Int 2).
Proof.
  assert (Hd : snapshot payload_partial !! "fan_state" = Some (QJsonValue.Double 2))
    by (vm_compute; reflexivity).
  split; [exact Hd|].
  exact (proj1 (C8_fan_state_whole_or_zero payload_partial st0 2%float Hd)).
Defined.

(** * Payloads missing, malformed or partial (C2, C3, C4, C10) *)

(** C2, as stated, fails: after the first cycle the GPU gauge shows 55
    and the GPU label "0.90 GHz"; the snapshot of the second cycle decodes
    to an object without [gpu_usage] and [gpu_freq], and after it they
    show 0 and "0.00 GHz". *)
Lemma C2_absent_field_counterexample :
  QJsonDocument.isObject (QJsonDocument.fromJson payload_partial) = true
  /\ snapshot payload_partial !! "gpu_usage" = None
  /\ snapshot payload_partial !! "gpu_freq" = None
  /\ (display_run [Some payload_gpu] st0 ≫= (.!! Ui.barGPU))
     = Some (Ui.Real 55)
  /\ (display_run [Some payload_gpu; Some payload_partial] st0 ≫= (.!! Ui.barGPU))
     = Some (Ui.Real 0)
  /\ (display_run [Some payload_gpu] st0 ≫= (.!! Ui.freqGPU))
     = Some (Ui.Text "0.90 GHz")
  /\ (display_run [Some payload_gpu; Some payload_partial] st0 ≫= (.!! Ui.freqGPU))
     = Some (Ui.Text "0.00 GHz").
Proof. repeat split; vm_compute; reflexivity. Qed.

(** C2, amended: in a cycle whose snapshot decodes successfully every
    widget is written.  A field present in the snapshot is transformed and
    written; a field absent from it reads as zero, and the widget that
    shows it has, after the cycle, the transform of zero (gauge 0, label
    "0.00 GHz" or "0.0 °C"), whatever it showed before. *)
Theorem C2_absent_field_shows_zero
  (payload : string) (obj : QJsonObject.t) (st : Dialog.state) (w : Ui.widget) :
  QJsonDocument.fromJson payload = QJsonDocument.ObjectDocument obj ->
  (forall v, obj !! source w = Some v ->
             (display_after (Some payload) st ≫= (.!! w)) = Some (transform w v))
  /\ (obj !! source w = None ->
      (display_after (Some payload) st ≫= (.!! w)) = Some (blank w)).
Proof.
  intros H. rewrite display_after_payload. unfold snapshot. rewrite H.
  cbn [QJsonDocument.object mbind option_bind]. rewrite exec_all_show_lookup.
  split.
  - intros v Hv. unfold find. rewrite Hv. reflexivity.
  - intros Hv. rewrite transform_absent by assumption. reflexivity.
Qed.

(** C2, amended, at the end-to-end snapshot, which has no [gpu_usage]. *)
Lemma C2_absent_field_witness :
  QJsonDocument.fromJson payload_partial
    = QJsonDocument.ObjectDocument (snapshot payload_partial)
  /\ snapshot payload_partial !! source Ui.barGPU = None
  /\ (display_after (Some payload_partial) st0 ≫= (.!! Ui.barGPU))
     = Some (blank Ui.barGPU).
Proof.
  assert (H : QJsonDocument.fromJson payload_partial
              = QJsonDocument.ObjectDocument (snapshot payload_partial))
    by (vm_compute; reflexivity).
  assert (Hv : snapshot payload_partial !! source Ui.barGPU = None)
    by (vm_compute; reflexivity).
  split; [exact H|]. split; [exact Hv|].
  exact (proj2 (C2_absent_field_shows_zero payload_partial _ st0 Ui.barGPU H) Hv).
Defined.

(** C3, as stated, fails: after the first cycle the CPU gauge shows 37.2
    and the CPU label "1800.00 GHz"; the payload of the second cycle is not
    empty and does not parse, and after it they show 0 and "0.00 GHz". *)
Lemma C3_malformed_payload_counterexample :
  QJsonDocument.fromJson "not json" = QJsonDocument.NullDocument
  /\ (display_run [Some payload_partial] st0 ≫= (.!! Ui.barCPU1))
     = Some (Ui.Real 37.2)
  /\ (display_run [Some payload_partial; Some "not json"] st0 ≫= (.!! Ui.barCPU1))
     = Some (Ui.Real 0)
  /\ (display_run [Some payload_partial] st0 ≫= (.!! Ui.freqCPU1))
     = Some (Ui.Text "1800.00 GHz")
  /\ (display_run [Some payload_partial; Some "not json"] st0 ≫= (.!! Ui.freqCPU1))
     = Some (Ui.Text "0.00 GHz").
Proof. repeat split; vm_compute; reflexivity. Qed.

(** C3, amended: when the provider returns a payload that cannot be
    parsed, the cycle is not skipped: the document is null, its object is
    empty, and after the cycle every widget shows the transform of zero
    (gauges 0, frequency labels "0.00 GHz", temperature label "0.0 °C"),
    whatever the display state was before. *)
Theorem C3_malformed_payload_blanks_display (payload : string) (st : Dialog.state) :
  QJsonDocument.fromJson payload = QJsonDocument.NullDocument ->
  display_after (Some payload) st = Some blank_display
  /\ forall w, blank_display !! w = Some (blank w).
Proof.
  intros H. split; [|apply blank_display_lookup].
  rewrite display_after_payload. unfold snapshot.
  rewrite H. cbn [QJsonDocument.object]. rewrite exec_all_show_empty. reflexivity.
Qed.

(** C3, amended, at a payload that is not JSON. *)
Lemma C3_malformed_payload_witness :
  QJsonDocument.fromJson "not json" = QJsonDocument.NullDocument
  /\ display_after (Some "not json") st0 = Some blank_display.
Proof.
  assert (H : QJsonDocument.fromJson "not json" = QJsonDocument.NullDocument)
    by (vm_compute; reflexivity).
  split; [exact H|].
  exact (proj1 (C3_malformed_payload_blanks_display "not json" st0 H)).
Defined.

(** C4, as stated, fails for an empty response: the provider answers with
    a buffer that holds the empty string.  After the first cycle the CPU
    gauge shows 37.2; the empty payload of the second cycle is not
    skipped, and the gauge shows 0. *)
Lemma C4_empty_response_counterexample :
  (display_run [Some payload_partial] st0 ≫= (.!! Ui.barCPU1))
    = Some (Ui.Real 37.2)
  /\ (display_run [Some payload_partial; Some ""] st0 ≫= (.!! Ui.barCPU1))
    = Some (Ui.Real 0)
  /\ display_run [Some payload_partial; Some ""] st0
     <> display_run [Some payload_partial] st0.
Proof.
  split; [vm_compute; reflexivity|]. split; [vm_compute; reflexivity|].
  intros H.
  assert (H' : (display_run [Some payload_partial; Some ""] st0 ≫= (.!! Ui.barCPU1))
               = (display_run [Some payload_partial] st0 ≫= (.!! Ui.barCPU1)))
    by (rewrite H; reflexivity).
  vm_compute in H'. discriminate H'.
Qed.

(** C4, amended: when the provider returns the null pointer the cycle
    does nothing but ask: the display state (and the heap) after the cycle
    is the one before it, and the timer goes on with the next ticks, all
    of which are served. *)
Theorem C4_null_response_skips_cycle (st : Dialog.state) (rest : list (option string)) :
  Dialog.updateDataFromRust None st = Some (tt, [Dialog.Get None], st)
  /\ display_after None st = Some (Dialog.ui st)
  /\ Dialog.run (None :: rest) st
     = match Dialog.run rest st with
       | Some (u, evs, st') => Some (u, Dialog.Get None :: evs, st')
       | None => None
       end
  /\ exists evs st', Dialog.run (None :: rest) st = Some (tt, evs, st')
                     /\ asked evs = S (length rest).
Proof.
  split; [apply updateDataFromRust_null|].
  split; [apply display_after_null|].
  split; [apply run_null|].
  destruct (run_total (None :: rest) st) as (evs & st' & E & _ & Ha).
  exists evs, st'. split; assumption.
Qed.

(** C10: in every cycle in which the provider returns a payload, whether
    it parses or not and whatever fields it has, the calls on the widgets
    are thirteen, one per widget (the eight gauges and the five labels,
    which are all the widgets there are); a widget whose field is absent
    from the payload is given the transform of zero; and the display state
    after the cycle is the same from any display state before it. *)
Theorem C10_payload_writes_every_widget (payload : string) (st : Dialog.state) :
  exists evs st',
    Dialog.updateDataFromRust (Some payload) st = Some (tt, evs, st')
    /\ Ui.target <$> widget_calls evs = Ui.widgets
    /\ length (widget_calls evs) = 13%nat
    /\ NoDup Ui.widgets
    /\ (forall w, w ∈ Ui.widgets)
    /\ (forall w, snapshot payload !! source w = None ->
                  Ui.Call w (blank w) ∈ widget_calls evs
                  /\ Dialog.ui st' !! w = Some (blank w))
    /\ (forall st2, display_after (Some payload) st2 = Some (Dialog.ui st')).
Proof.
  eexists _, _. rewrite updateDataFromRust_payload. split; [reflexivity|].
  rewrite widget_calls_cycle.
  split; [reflexivity|]. split; [reflexivity|].
  split; [apply widgets_NoDup|]. split; [apply widgets_all|]. split.
  - intros w Hw. split.
    + apply list_elem_of_fmap. exists w. split; [|apply widgets_all].
      unfold written. rewrite transform_absent by assumption. reflexivity.
    + cbn [Dialog.ui]. rewrite exec_all_show_lookup.
      rewrite transform_absent by assumption. reflexivity.
  - intros st2. rewrite display_after_payload. cbn [Dialog.ui].
    f_equal. apply exec_all_show_any.
Qed.

(** C10 at the empty object, for the NPU label. *)
Lemma C10_payload_witness :
  snapshot "{}" !! source Ui.freqNPU1 = None
  /\ (display_after (Some "{}") st0 ≫= (.!! Ui.freqNPU1)) = Some (Ui.Text "0.00 GHz").
Proof.
  assert (Hv : snapshot "{}" !! source Ui.freqNPU1 = None) by (vm_compute; reflexivity).
  split; [exact Hv|].
  destruct (C10_payload_writes_every_widget "{}" st0) as (evs & st' & E & _ & _ & _ & _ & Hb & Hd).
  rewrite (Hd st0). cbn [mbind option_bind]. exact (proj2 (Hb Ui.freqNPU1 Hv)).
Defined.

(** * The payload buffer (C5) *)

(** C5: whatever the provider answers and however the payload decodes, a
    cycle runs without touching a dead buffer (no second release, no read
    after release), leaves the heap as it found it (no leak), and its
    dealings with the provider are: the request and, when a buffer came
    back, one release of that buffer; no release when none came back. *)
Theorem C5_buffer_released_once (answer : option string) (st : Dialog.state) :
  exists evs st',
    Dialog.updateDataFromRust answer st = Some (tt, evs, st')
    /\ Dialog.heap st' = Dialog.heap st
    /\ match answer with
       | Some _ =>
           exists p, Dialog.heap st !! p = None
                     /\ provider_events evs = [Dialog.Get (Some p); Dialog.Free p]
       | None => provider_events evs = [Dialog.Get None]
       end.
Proof.
  destruct answer as [payload|].
  - eexists _, _. rewrite updateDataFromRust_payload.
    split; [reflexivity|]. split; [reflexivity|].
    exists (fresh (dom (Dialog.heap st))). split.
    + apply not_elem_of_dom, is_fresh.
    + reflexivity.
  - exists [Dialog.Get None], st. rewrite updateDataFromRust_null. auto.
Qed.

(** * Idempotence (C9) *)

(** C9: applying the transforms of a snapshot to a display state twice
    gives the display state that applying them once gives; so does a
    second cycle on the same answer of the provider, payload or not. *)
Theorem C9_transforms_idempotent :
  (forall (obj : QJsonObject.t) (st : Dialog.state),
      exists ds,
        display_of (Dialog.show obj) st = Some ds
        /\ display_of (Dialog.show obj;; Dialog.show obj) st = Some ds)
  /\ (forall (answer : option string) (st : Dialog.state),
         exists ds,
           display_run [answer] st = Some ds
           /\ display_run [answer; answer] st = Some ds).
Proof.
  split.
  - intros obj st. eexists. unfold display_of.
    rewrite (bind_Some _ _ _ _ _ _ (show_spec obj st)), !show_spec.
    cbn [mbind option_bind Dialog.ui]. split; [reflexivity|].
    f_equal. apply exec_all_show_any.
  - intros answer st. unfold display_run, display_of. cbn [Dialog.run].
    destruct answer as [payload|]; eexists.
    + repeat (erewrite bind_Some by apply updateDataFromRust_payload).
      cbn [mbind option_bind mret Dialog.cmd_ret Dialog.ui].
      split; [reflexivity|]. f_equal. apply exec_all_show_any.
    + repeat (erewrite bind_Some by apply updateDataFromRust_null).
      split; reflexivity.
Qed.

(** * Further properties of the cycle and of the timer *)

Lemma usage_widgets_cases (P : Ui.widget -> Prop) w :
  w ∈ usage_widgets ->
  P Ui.barCPU1 -> P Ui.barGPU -> P Ui.barNPU1 -> P Ui.barRGA1 ->
  P Ui.barMem -> P Ui.barSwap -> P w.
Proof.
  unfold usage_widgets. intros H. rewrite !elem_of_cons in H.
  destruct H as [->|[->|[->|[->|[->|[->|H]]]]]]; auto. set_solver.
Qed.

Lemma transform_kind w v : kind_of_content (transform w v) = kind_of_widget w.
Proof. destruct w; reflexivity. Qed.

Lemma transform_non_number w v : is_number v = false -> transform w v = blank w.
Proof.
  intros H. destruct v; try discriminate H; destruct w; vm_compute; reflexivity.
Qed.



Lemma exec_all_calls_eq o1 o2 ds1 ds2 :
  (forall w, o1 !! source w = o2 !! source w) ->
  Ui.exec_all (calls o1) ds1 = Ui.exec_all (calls o2) ds2.
Proof.
  intros H. apply map_eq. intros w. rewrite !exec_all_show_lookup.
  unfold find. rewrite H. reflexivity.
Qed.

Lemma provider_events_app evs evs' :
  provider_events (evs ++ evs') = (provider_events evs ++ provider_events evs')%list.
Proof. apply List.filter_app. Qed.

Lemma provider_events_widgets cs : provider_events (Dialog.Widget <$> cs) = [].
Proof. induction cs as [|c cs IH]; [reflexivity|exact IH]. Qed.

Lemma last_payload_app_null l1 l2 :
  last_payload (l1 ++ None :: l2) = last_payload (l1 ++ l2).
Proof.
  induction l1 as [|a l1 IH]; cbn [app last_payload].
  - destruct (last_payload l2); reflexivity.
  - rewrite IH. reflexivity.
Qed.

(** A run of the timer: it serves every tick, the heap is left as it was,
    each tick deals with the provider as [tick_events] says, and the
    display is the one the last payload leaves. *)
Lemma run_spec answers : forall st,
  exists evs st',
    Dialog.run answers st = Some (tt, evs, st')
    /\ Dialog.heap st' = Dialog.heap st
    /\ Dialog.ui st'
       = match last_payload answers with
         | Some payload => rendered payload
         | None => Dialog.ui st
         end
    /\ provider_events evs
       = flat_map (tick_events (fresh (dom (Dialog.heap st)))) answers.
Proof.
  induction answers as [|answer rest IH]; intros st.
  - exists [], st. repeat split; reflexivity.
  - destruct answer as [payload|]; cbn [Dialog.run].
    + erewrite bind_Some by apply updateDataFromRust_payload.
      match goal with
      | |- context [Dialog.run rest ?s] =>
          destruct (IH s) as (evs' & st2 & E2 & Hh & Hu & He)
      end.
      rewrite E2. eexists _, st2. split; [reflexivity|].
      cbn [Dialog.heap Dialog.ui] in Hh, Hu, He.
      split; [exact Hh|]. split.
      * rewrite Hu. cbn [last_payload].
        destruct (last_payload rest); [reflexivity|]. apply exec_all_show_any.
      * change (provider_events
                  (Dialog.Get (Some (fresh (dom (Dialog.heap st))))
                     :: Dialog.Free (fresh (dom (Dialog.heap st)))
                     :: ((Dialog.Widget <$> calls (snapshot payload)) ++ evs'))
                = flat_map (tick_events (fresh (dom (Dialog.heap st)))) (Some payload :: rest)).
        cbn [flat_map tick_events app]. rewrite <- He. reflexivity.
    + erewrite bind_Some by apply updateDataFromRust_null.
      destruct (IH st) as (evs' & st2 & E2 & Hh & Hu & He).
      rewrite E2. eexists _, st2. split; [reflexivity|].
      split; [exact Hh|]. split.
      * rewrite Hu. cbn [last_payload]. destruct (last_payload rest); reflexivity.
      * cbn [flat_map tick_events app]. rewrite <- He. reflexivity.
Qed.

Lemma display_run_spec answers st :
  display_run answers st
  = Some match last_payload answers with
         | Some payload => rendered payload
         | None => Dialog.ui st
         end.
Proof.
  unfold display_run, display_of.
  destruct (run_spec answers st) as (evs & st' & E & _ & Hu & _).
  rewrite E. cbn [mbind option_bind]. rewrite Hu. reflexivity.
Qed.

Lemma rendered_lookup payload w :
  rendered payload !! w = Some (transform w (find (source w) (snapshot payload))).
Proof. apply exec_all_show_lookup. Qed.

(** X1: a usage present as a number is given to its gauge as it is; it is
    not clamped to the range from 0 to 100. *)
Theorem X1_usage_not_clamped
  (payload : string) (st : Dialog.state) (w : Ui.widget) (d : float) :
  w ∈ usage_widgets ->
  snapshot payload !! source w = Some (QJsonValue.Double d) ->
  (display_after (Some payload) st ≫= (.!! w)) = Some (Ui.Real d).
Proof.
  intros Hw Hd. rewrite display_after_lookup. unfold find. rewrite Hd. clear Hd.
  pattern w. apply (usage_widgets_cases _ w Hw); reflexivity.
Qed.

(** X1 at a memory usage of 150: the gauge is given 150. *)
Lemma X1_usage_witness :
  snapshot (one_field "memory_usage" "150") !! source Ui.barMem
    = Some (QJsonValue.Double 150)
  /\ (display_after (Some (one_field "memory_usage" "150")) st0 ≫= (.!! Ui.barMem))
     = Some (Ui.Real 150).
Proof.
  assert (Hd : snapshot (one_field "memory_usage" "150") !! source Ui.barMem
               = Some (QJsonValue.Double 150)) by (vm_compute; reflexivity).
  assert (Hw : Ui.barMem ∈ usage_widgets)
    by (apply (bool_decide_unpack (Ui.barMem ∈ usage_widgets)); vm_compute; exact I).
  split; [exact Hd|].
  exact (X1_usage_not_clamped _ st0 Ui.barMem 150%float Hw Hd).
Defined.

(** X2: a field whose value is not a number (a string, a boolean, null,
    an array, an object) is shown as a field that is absent: its widget is
    given the transform of zero. *)
Theorem X2_non_number_shows_zero
  (payload : string) (st : Dialog.state) (w : Ui.widget) (v : QJsonValue.t) :
  snapshot payload !! source w = Some v ->
  is_number v = false ->
  (display_after (Some payload) st ≫= (.!! w)) = Some (blank w).
Proof.
  intros Hv Hn. rewrite display_after_lookup. unfold find. rewrite Hv.
  cbn [default]. rewrite transform_non_number by exact Hn. reflexivity.
Qed.

(** X2 at a CPU usage written as the string "37.2". *)
Lemma X2_non_number_witness :
  snapshot (one_field "cpu_usage" "'37.2'") !! source Ui.barCPU1
    = Some (QJsonValue.String "37.2")
  /\ (display_after (Some (one_field "cpu_usage" "'37.2'")) st0 ≫= (.!! Ui.barCPU1))
     = Some (Ui.Real 0).
Proof.
  assert (Hv : snapshot (one_field "cpu_usage" "'37.2'") !! source Ui.barCPU1
               = Some (QJsonValue.String "37.2")) by (vm_compute; reflexivity).
  split; [exact Hv|].
  exact (X2_non_number_shows_zero _ st0 Ui.barCPU1 _ Hv eq_refl).
Defined.

(** X3: a payload that is a JSON array parses, but the object of its
    document is empty: after the cycle every widget shows the transform of
    zero, whatever was displayed before. *)
Theorem X3_array_payload_blanks_display
  (payload : string) (a : list QJsonValue.t) (st : Dialog.state) :
  QJsonDocument.fromJson payload = QJsonDocument.ArrayDocument a ->
  display_after (Some payload) st = Some blank_display.
Proof.
  intros H. rewrite display_after_payload. unfold snapshot. rewrite H.
  cbn [QJsonDocument.object]. rewrite exec_all_show_empty. reflexivity.
Qed.

(** X3 at the array of one object that has a CPU usage. *)
Lemma X3_array_payload_witness :
  QJsonDocument.fromJson (json "[{'cpu_usage': 37.2}]")
    = QJsonDocument.ArrayDocument
        [QJsonValue.Object {["cpu_usage" := QJsonValue.Double 37.2]}]
  /\ display_after (Some (json "[{'cpu_usage': 37.2}]")) st0 = Some blank_display.
Proof.
  assert (H : QJsonDocument.fromJson (json "[{'cpu_usage': 37.2}]")
              = QJsonDocument.ArrayDocument
                  [QJsonValue.Object {["cpu_usage" := QJsonValue.Double 37.2]}])
    by (vm_compute; reflexivity).
  split; [exact H|].
  exact (X3_array_payload_blanks_display _ _ st0 H).
Defined.

(** X4: after every cycle on a payload the temperature label is the text
    of the number the temperature gauge was given: the two reads of
    [obj["temperature"]] give the same value. *)
Theorem X4_temperature_gauge_and_label_agree (payload : string) (st : Dialog.state) :
  exists d,
    (display_after (Some payload) st ≫= (.!! Ui.barTemp)) = Some (Ui.Real d)
    /\ (display_after (Some payload) st ≫= (.!! Ui.freqTemp))
       = Some (Ui.Text (QString.number d 1 +:+ " °C")).
Proof.
  eexists. rewrite !display_after_lookup. split; reflexivity.
Qed.

(** X5: over any run of the timer nothing faults, the heap is left as it
    was, and the dealings with the provider are, tick after tick, one
    request and, when a buffer came back, one release of that buffer
    before the next request. *)
Theorem X5_run_releases_every_buffer
  (answers : list (option string)) (st : Dialog.state) :
  exists evs st' p,
    Dialog.run answers st = Some (tt, evs, st')
    /\ Dialog.heap st' = Dialog.heap st
    /\ Dialog.heap st !! p = None
    /\ provider_events evs = flat_map (tick_events p) answers.
Proof.
  destruct (run_spec answers st) as (evs & st' & E & Hh & _ & He).
  exists evs, st', (fresh (dom (Dialog.heap st))).
  split; [exact E|]. split; [exact Hh|]. split; [|exact He].
  apply not_elem_of_dom, is_fresh.
Qed.

(** X6: the display after a run of the timer is the one the last payload
    of the run leaves, whatever was displayed before and whatever the
    earlier ticks were; a run without payload leaves the display as it
    was. *)
Theorem X6_last_payload_wins (answers : list (option string)) (st : Dialog.state) :
  display_run answers st
  = Some match last_payload answers with
         | Some payload => rendered payload
         | None => Dialog.ui st
         end.
Proof. apply display_run_spec. Qed.

(** X7: only the twelve fields the cycle reads count: two payloads whose
    snapshots agree on them leave the same display, whatever else they
    hold and whatever was displayed before. *)
Theorem X7_other_fields_ignored
  (payload1 payload2 : string) (st1 st2 : Dialog.state) :
  (forall w, snapshot payload1 !! source w = snapshot payload2 !! source w) ->
  display_after (Some payload1) st1 = display_after (Some payload2) st2.
Proof.
  intros H. rewrite !display_after_payload. f_equal.
  apply exec_all_calls_eq. exact H.
Qed.

(** X7 at a payload with a host name and a list of cores besides the fan
    state. *)
Lemma X7_other_fields_witness :
  display_after (Some (json "{'fan_state': 3}")) st0
  = display_after
      (Some (json "{'host': 'rock5b', 'fan_state': 3, 'cores': [1, 2]}")) st0.
Proof.
  apply (X7_other_fields_ignored _ _ st0 st0).
  intros w. destruct w; vm_compute; reflexivity.
Defined.


(** X9: a run of the timer keeps the display well typed (a gauge shows a
    number, the fan gauge a level, a label a text), and after a run with a
    payload every widget shows something. *)
Theorem X9_run_keeps_display_well_typed
  (answers : list (option string)) (st : Dialog.state) :
  well_typed (Dialog.ui st) ->
  exists ds,
    display_run answers st = Some ds
    /\ well_typed ds
    /\ (is_Some (last_payload answers) -> complete ds).
Proof.
  intros Hwt. eexists. split; [apply display_run_spec|].
  destruct (last_payload answers) as [payload|].
  - split.
    + intros w c Hc. rewrite rendered_lookup in Hc.
      injection Hc as <-. apply transform_kind.
    + intros _ w. rewrite rendered_lookup. eexists. reflexivity.
  - split; [exact Hwt|]. intros [p Hp]. discriminate Hp.
Qed.

(** X9 from the display that shows nothing. *)
Lemma X9_run_witness :
  well_typed (Dialog.ui st0)
  /\ exists ds,
       display_run [None; Some payload_partial; None] st0 = Some ds
       /\ well_typed ds
       /\ (is_Some (last_payload [None; Some payload_partial; None]) -> complete ds).
Proof.
  assert (H : well_typed (Dialog.ui st0)).
  { intros w c Hc. cbn [Dialog.ui st0] in Hc. rewrite lookup_empty in Hc.
    discriminate Hc. }
  split; [exact H|].
  exact (X9_run_keeps_display_well_typed [None; Some payload_partial; None] st0 H).
Defined.

(** X10: a tick at which the provider returns the null pointer can be
    dropped from a run, wherever it stands: the display after the run is
    the same. *)
Theorem X10_null_tick_leaves_display
  (before after : list (option string)) (st : Dialog.state) :
  display_run (before ++ None :: after) st = display_run (before ++ after) st.
Proof.
  rewrite !display_run_spec, last_payload_app_null. reflexivity.
Qed.
